(** * go-blizzard: region resolution, token lifecycle and request execution

    A shallow embedding of the client core of the library (the [Client]
    structure with [SetRegion] and its accessors, the OAuth token functions
    of oauth.go and the three [getStructData] request templates), followed
    by the properties of that code.

    Conventions of the embedding.
    - Go [string] and [[]byte] are [string] (a sequence of 8-bit characters);
      the nil slice and the empty slice are both [""].
    - Go [int], [int64] and [time.Duration] are [Z]; where the code can
      overflow the wrap-around is written out ([wrap64]).
    - A Go method on [*Client] that mutates its receiver takes the client
      and returns the updated client.
    - Everything outside the program (the wall clock, the HTTP transport,
      URL parsing) is an explicit environment: see [World] and [Network]. *)

From Stdlib Require Import ZArith List String Ascii Bool Lia.
From Stdlib Require Import DecimalString.
Import ListNotations.

Local Open Scope string_scope.
Local Open Scope Z_scope.

Set Implicit Arguments.

(* ================================================================== *)
(** * Basic Go values *)

(** The result of evaluating a Go expression that may panic. *)
Inductive outcome (A : Type) : Type :=
| Returns (a : A)
| Panics (msg : string).
Arguments Returns {A} a.
Arguments Panics {A} msg.

(** Decimal rendering of an integer, as [%d] / [strconv.Itoa] print it. *)
Definition itoa (z : Z) : string := NilZero.string_of_int (Z.to_int z).

(** [s[i]] on a slice of strings with Go's bounds check.  The message is the
    one of [runtime.boundsError]: a negative index is reported without the
    length. *)
Definition index (rr : list string) (i : Z) : outcome string :=
  if i <? 0 then
    Panics ("runtime error: index out of range [" ++ itoa i ++ "]")
  else
    match nth_error rr (Z.to_nat i) with
    | Some s => Returns s
    | None =>
        Panics ("runtime error: index out of range [" ++ itoa i
                ++ "] with length " ++ itoa (Z.of_nat (List.length rr)))
    end.

(* ================================================================== *)
(** * Regions (blizzard.go) *)

Module Regions.

(** [type Region int] *)
Definition Region := Z.

(** [const ( _ Region = iota; US; EU; KR; TW; CN )] *)
Definition US : Region := 1.
Definition EU : Region := 2.
Definition KR : Region := 3.
Definition TW : Region := 4.
Definition CN : Region := 5.

(** The table [rr] of [Region.String]. *)
Definition rr : list string := [""; "us"; "eu"; "kr"; "tw"; "cn"].

(** [func (region Region) String() string { ...; return rr[region] }] *)
Definition String_ (region : Region) : outcome string := index rr region.

(** What the verb [%s] prints for a [Region] operand.  [Region] is a
    [fmt.Stringer], so [fmt] calls [String]; a panic raised by the method
    is recovered by [fmt] (catchPanic) and rendered in place. *)
Definition verb_s (region : Region) : string :=
  match String_ region with
  | Returns s => s
  | Panics msg => "%!s(PANIC=String method: " ++ msg ++ ")"
  end.

(** [fmt.Sprintf(format, region)] for formats made of literal text and
    [%s] verbs: the first [%s] prints the operand, a further one has no
    operand left. *)
Fixpoint Sprintf_from (used : bool) (format : string) (region : Region) : string :=
  match format with
  | String "%" (String "s" rest) =>
      (if used then "%!s(MISSING)" else verb_s region)
        ++ Sprintf_from true rest region
  | String a rest => String a (Sprintf_from used rest region)
  | EmptyString => EmptyString
  end.

Definition Sprintf (format : string) (region : Region) : string :=
  Sprintf_from false format region.

End Regions.
Export Regions.

(* ================================================================== *)
(** * The client structure (blizzard.go) *)

(** [type Locale string] *)
Definition Locale := string.

Definition Locale_String (locale : Locale) : string := locale.

(** [clientcredentials.Config], the fields the library sets. *)
Record Config : Type := mkConfig {
  cfg_ClientID : string;
  cfg_ClientSecret : string;
  cfg_TokenURL : string
}.

(** [oauth2.Token], as far as the library is concerned an opaque bearer. *)
Record Token : Type := mkToken { tok_AccessToken : string }.

(** An [*http.Client].  The library never builds one by hand: it is either
    absent (the zero value of the field), made by [c.cfg.Client(ctx)] from a
    copy of the credentials configuration, or made by
    [c.authorizedCfg.Client(ctx, token)] around a caller-supplied token. *)
Inductive HTTPClient : Type :=
| NilClient
| CredentialsClient (cfg : Config)
| AuthorizedClient (token : Token).

(** Modelled from the spec: the declaration of [oauth.AccessTokenRequest]
    lives in the [oauth] sub-package, which is not among the sources; the
    token endpoint's response fields are access_token, token_type,
    expires_in and scope. *)
Record AccessTokenRequest : Type := mkAccessTokenRequest {
  AccessToken : string;
  TokenType : string;
  ExpiresIn : Z;
  Scope : string
}.

(** [time.Time] restricted to what the library does with it: an instant in
    nanoseconds counted from the zero [Time] (January 1, year 1, UTC). *)
Definition Time := Z.

(** [type OAuth struct] of oauth.go. *)
Record OAuth : Type := mkOAuth {
  ClientID : string;
  ClientSecret : string;
  AccessTokenRequest_ : AccessTokenRequest;
  ExpiresAt : Time
}.

(** [type Client struct] *)
Record Client : Type := mkClient {
  client : HTTPClient;
  cfg : Config;
  oauth : OAuth;
  oauthHost : string;
  apiHost : string;
  dynamicNamespace : string;
  staticNamespace : string;
  profileNamespace : string;
  dynamicClassicNamespace : string;
  staticClassicNamespace : string;
  region : Region;
  locale : Locale
}.

(** Field assignments [c.f = v]. *)
Definition set_client v c := mkClient v (cfg c) (oauth c) (oauthHost c) (apiHost c)
  (dynamicNamespace c) (staticNamespace c) (profileNamespace c)
  (dynamicClassicNamespace c) (staticClassicNamespace c) (region c) (locale c).
Definition set_cfg v c := mkClient (client c) v (oauth c) (oauthHost c) (apiHost c)
  (dynamicNamespace c) (staticNamespace c) (profileNamespace c)
  (dynamicClassicNamespace c) (staticClassicNamespace c) (region c) (locale c).
Definition set_oauth v c := mkClient (client c) (cfg c) v (oauthHost c) (apiHost c)
  (dynamicNamespace c) (staticNamespace c) (profileNamespace c)
  (dynamicClassicNamespace c) (staticClassicNamespace c) (region c) (locale c).
Definition set_oauthHost v c := mkClient (client c) (cfg c) (oauth c) v (apiHost c)
  (dynamicNamespace c) (staticNamespace c) (profileNamespace c)
  (dynamicClassicNamespace c) (staticClassicNamespace c) (region c) (locale c).
Definition set_apiHost v c := mkClient (client c) (cfg c) (oauth c) (oauthHost c) v
  (dynamicNamespace c) (staticNamespace c) (profileNamespace c)
  (dynamicClassicNamespace c) (staticClassicNamespace c) (region c) (locale c).
Definition set_dynamicNamespace v c := mkClient (client c) (cfg c) (oauth c)
  (oauthHost c) (apiHost c) v (staticNamespace c) (profileNamespace c)
  (dynamicClassicNamespace c) (staticClassicNamespace c) (region c) (locale c).
Definition set_staticNamespace v c := mkClient (client c) (cfg c) (oauth c)
  (oauthHost c) (apiHost c) (dynamicNamespace c) v (profileNamespace c)
  (dynamicClassicNamespace c) (staticClassicNamespace c) (region c) (locale c).
Definition set_profileNamespace v c := mkClient (client c) (cfg c) (oauth c)
  (oauthHost c) (apiHost c) (dynamicNamespace c) (staticNamespace c) v
  (dynamicClassicNamespace c) (staticClassicNamespace c) (region c) (locale c).
Definition set_dynamicClassicNamespace v c := mkClient (client c) (cfg c) (oauth c)
  (oauthHost c) (apiHost c) (dynamicNamespace c) (staticNamespace c)
  (profileNamespace c) v (staticClassicNamespace c) (region c) (locale c).
Definition set_staticClassicNamespace v c := mkClient (client c) (cfg c) (oauth c)
  (oauthHost c) (apiHost c) (dynamicNamespace c) (staticNamespace c)
  (profileNamespace c) (dynamicClassicNamespace c) v (region c) (locale c).
Definition set_region v c := mkClient (client c) (cfg c) (oauth c)
  (oauthHost c) (apiHost c) (dynamicNamespace c) (staticNamespace c)
  (profileNamespace c) (dynamicClassicNamespace c) (staticClassicNamespace c)
  v (locale c).
Definition set_locale v c := mkClient (client c) (cfg c) (oauth c)
  (oauthHost c) (apiHost c) (dynamicNamespace c) (staticNamespace c)
  (profileNamespace c) (dynamicClassicNamespace c) (staticClassicNamespace c)
  (region c) v.

Definition set_TokenURL v (k : Config) :=
  mkConfig (cfg_ClientID k) (cfg_ClientSecret k) v.

(** Sequencing of receiver mutations: [c |> f |> g] runs [f] then [g]. *)
Notation "c |> f" := (f c) (at level 45, left associativity, only parsing).

(** [func (c *Client) SetRegion(region Region)] *)
Definition SetRegion (region : Region) (c : Client) : Client :=
  let c := set_region region c in
  let c :=
    if region =? CN then
      c |> set_oauthHost "https://www.battlenet.com.cn"
        |> set_apiHost "https://gateway.battlenet.com.cn"
        |> set_dynamicNamespace "dynamic-zh"
        |> set_dynamicClassicNamespace "dynamic-classic-zh"
        |> set_profileNamespace "profile-zh"
        |> set_staticNamespace "static-zh"
        |> set_staticClassicNamespace "static-classic-zh"
    else
      c |> set_oauthHost (Sprintf "https://%s.battle.net" region)
        |> set_apiHost (Sprintf "https://%s.api.blizzard.com" region)
        |> set_dynamicNamespace (Sprintf "dynamic-%s" region)
        |> set_dynamicClassicNamespace (Sprintf "dynamic-classic-%s" region)
        |> set_profileNamespace (Sprintf "profile-%s" region)
        |> set_staticNamespace (Sprintf "static-%s" region)
        |> set_staticClassicNamespace (Sprintf "static-classic-%s" region)
  in
  let c := set_cfg (set_TokenURL (oauthHost c ++ "/oauth/token") (cfg c)) c in
  set_client (CredentialsClient (cfg c)) c.

(** [func NewClient(clientID, clientSecret string, region Region, locale Locale) *Client] *)
Definition NewClient (clientID clientSecret : string) (region : Region)
    (locale : Locale) : Client :=
  let zero_token := mkAccessTokenRequest "" "" 0 "" in
  let c := mkClient NilClient (mkConfig "" "" "")
             (mkOAuth clientID clientSecret zero_token 0)
             "" "" "" "" "" "" "" 0 locale in
  let c := set_cfg (mkConfig (ClientID (oauth c)) (ClientSecret (oauth c)) "") c in
  SetRegion region c.

Definition GetLocale (c : Client) : Locale := locale c.
Definition SetLocale (locale : Locale) (c : Client) : Client := set_locale locale c.
Definition GetRegion (c : Client) : Region := region c.
Definition GetOAuthHost (c : Client) : string := oauthHost c.
Definition GetAPIHost (c : Client) : string := apiHost c.
Definition GetDynamicNamespace (c : Client) : string := dynamicNamespace c.
Definition GetDynamicClassicNamespace (c : Client) : string := dynamicClassicNamespace c.
Definition GetProfileNamespace (c : Client) : string := profileNamespace c.
Definition GetStaticNamespace (c : Client) : string := staticNamespace c.
Definition GetStaticClassicNamespace (c : Client) : string := staticClassicNamespace c.


(* ================================================================== *)
(** * encoding/json, as the library uses it *)

(** [json.Unmarshal] first checks that the whole input is one well-formed
    JSON text and only then stores it into the destination.  [parse] is the
    first phase, producing the document; [JSONTarget] is the second. *)
Module JSON.

#[warnings="-register-all"]
Inductive json : Type :=
| JNull
| JBool (b : bool)
| JNumber (literal : string)
| JString (s : string)
| JArray (elems : list json)
| JObject (members : list (string * json)).

(** Result of scanning a prefix of the input: the value scanned and the
    input left, a syntax error, or recursion budget exhausted (which
    [parse_never_exhausts] rules out for the budget [parse] gives). *)
Inductive presult (A : Type) : Type :=
| POk (a : A) (rest : string)
| PErr
| PFuel.
Arguments POk {A} a rest.
Arguments PErr {A}.
Arguments PFuel {A}.

Definition pmap {A B : Type} (f : A -> B) (r : presult A) : presult B :=
  match r with
  | POk a rest => POk (f a) rest
  | PErr => PErr
  | PFuel => PFuel
  end.

Definition code (c : ascii) : Z := Z.of_N (N_of_ascii c).
Definition byte (z : Z) : ascii := ascii_of_N (Z.to_N z).

(** The double quote character. *)
Definition dq : ascii := "034"%char.

Definition is_ws (c : ascii) : bool :=
  (code c =? 32) || (code c =? 9) || (code c =? 10) || (code c =? 13).

Definition is_digit (c : ascii) : bool := (48 <=? code c) && (code c <=? 57).

Fixpoint skip_ws (s : string) : string :=
  match s with
  | String c r => if is_ws c then skip_ws r else s
  | EmptyString => s
  end.

(** ** Strings *)

Definition hex_digit (c : ascii) : option Z :=
  let n := code c in
  if (48 <=? n) && (n <=? 57) then Some (n - 48)
  else if (97 <=? n) && (n <=? 102) then Some (n - 87)
  else if (65 <=? n) && (n <=? 70) then Some (n - 55)
  else None.

Definition hex4 (a b c d : ascii) : option Z :=
  match hex_digit a, hex_digit b, hex_digit c, hex_digit d with
  | Some x, Some y, Some z, Some w => Some (((x * 16 + y) * 16 + z) * 16 + w)
  | _, _, _, _ => None
  end.

(** [utf8.EncodeRune]; an invalid rune is encoded as U+FFFD. *)
Definition EncodeRune (r : Z) : string :=
  let bytes := map byte in
  let replacement := [239; 191; 189] in
  string_of_list_ascii
    (bytes
       (if r <? 0 then replacement
        else if r <? 128 then [r]
        else if r <? 2048 then [192 + r / 64; 128 + r mod 64]
        else if (55296 <=? r) && (r <=? 57343) then replacement
        else if r <? 65536 then
          [224 + r / 4096; 128 + (r / 64) mod 64; 128 + r mod 64]
        else if r <=? 1114111 then
          [240 + r / 262144; 128 + (r / 4096) mod 64;
           128 + (r / 64) mod 64; 128 + r mod 64]
        else replacement)).

Definition is_surrogate (r : Z) : bool := (55296 <=? r) && (r <=? 57343).

(** [utf16.DecodeRune]: the code point of a surrogate pair, if it is one. *)
Definition DecodeRune (r1 r2 : Z) : option Z :=
  if (55296 <=? r1) && (r1 <? 56320) && (56320 <=? r2) && (r2 <? 57344)
  then Some ((r1 - 55296) * 1024 + (r2 - 56320) + 65536)
  else None.

Definition simple_escape (e : ascii) : option ascii :=
  let n := code e in
  if (n =? 34) || (n =? 92) || (n =? 47) then Some e
  else if n =? 98 then Some (byte 8)
  else if n =? 102 then Some (byte 12)
  else if n =? 110 then Some (byte 10)
  else if n =? 114 then Some (byte 13)
  else if n =? 116 then Some (byte 9)
  else None.

Definition prepend (p : string) (r : presult string) : presult string :=
  pmap (fun s => p ++ s)%string r.

(** The contents of a string literal, from just after its opening quote to
    its closing quote, with escapes decoded as [unquote] does.  Bytes from
    128 up are copied as they are: the input is taken to be well-formed
    UTF-8 (Go replaces ill-formed sequences by U+FFFD). *)
Fixpoint scan_string (s : string) : presult string :=
  match s with
  | EmptyString => PErr
  | String c r =>
      if code c =? 34 then POk EmptyString r
      else if code c =? 92 then
        match r with
        | EmptyString => PErr
        | String e r1 =>
            if code e =? 117 then
              match r1 with
              | String h1 (String h2 (String h3 (String h4 r2))) =>
                  match hex4 h1 h2 h3 h4 with
                  | None => PErr
                  | Some rr1 =>
                      if is_surrogate rr1 then
                        match r2 with
                        | String b (String u (String g1 (String g2
                            (String g3 (String g4 r3))))) =>
                            match
                              (if (code b =? 92) && (code u =? 117)
                               then hex4 g1 g2 g3 g4 else None)
                            with
                            | Some rr2 =>
                                match DecodeRune rr1 rr2 with
                                | Some dec =>
                                    prepend (EncodeRune dec) (scan_string r3)
                                | None =>
                                    prepend (EncodeRune 65533) (scan_string r2)
                                end
                            | None =>
                                prepend (EncodeRune 65533) (scan_string r2)
                            end
                        | _ => prepend (EncodeRune 65533) (scan_string r2)
                        end
                      else prepend (EncodeRune rr1) (scan_string r2)
                  end
              | _ => PErr
              end
            else
              match simple_escape e with
              | Some ch => prepend (String ch EmptyString) (scan_string r1)
              | None => PErr
              end
        end
      else if code c <? 32 then PErr
      else prepend (String c EmptyString) (scan_string r)
  end.

(** ** Numbers *)

(** The longest run of digits at the head of the input, and the rest. *)
Fixpoint digits (s : string) : string * string :=
  match s with
  | String c r =>
      if is_digit c then let (ds, rest) := digits r in (String c ds, rest)
      else (EmptyString, s)
  | EmptyString => (EmptyString, EmptyString)
  end.

Definition scan_exponent (lit s : string) : presult string :=
  match s with
  | String e r =>
      if (code e =? 101) || (code e =? 69) then
        let (sign, r1) :=
          match r with
          | String g r' =>
              if (code g =? 43) || (code g =? 45)
              then (String g EmptyString, r') else (EmptyString, r)
          | EmptyString => (EmptyString, r)
          end in
        let (ds, rest) := digits r1 in
        match ds with
        | EmptyString => PErr
        | _ => POk (lit ++ String e sign ++ ds)%string rest
        end
      else POk lit s
  | EmptyString => POk lit s
  end.

Definition scan_fraction (lit s : string) : presult string :=
  match s with
  | String d r =>
      if code d =? 46 then
        let (ds, rest) := digits r in
        match ds with
        | EmptyString => PErr
        | _ => scan_exponent (lit ++ String d ds)%string rest
        end
      else scan_exponent lit s
  | EmptyString => POk lit s
  end.

(** A number literal: an optional minus sign; then 0, or a digit from 1
    to 9 and any digits; then an optional fraction (a dot and one digit or
    more); then an optional exponent (e or E, an optional sign, one digit
    or more). *)
Definition scan_number (s : string) : presult string :=
  let (sign, s1) :=
    match s with
    | String m r => if code m =? 45 then (String m EmptyString, r)
                    else (EmptyString, s)
    | EmptyString => (EmptyString, s)
    end in
  match s1 with
  | String c r =>
      if code c =? 48 then scan_fraction (sign ++ String c EmptyString)%string r
      else if is_digit c then
        let (ds, rest) := digits r in
        scan_fraction (sign ++ String c ds)%string rest
      else PErr
  | EmptyString => PErr
  end.

(** ** Values *)

(** The input after a given prefix, if it starts with it. *)
Fixpoint strip_prefix (prefix s : string) : option string :=
  match prefix, s with
  | EmptyString, _ => Some s
  | String a p, String b r => if Ascii.eqb a b then strip_prefix p r else None
  | String _ _, EmptyString => None
  end.

Definition scan_literal (s : string) : presult json :=
  match strip_prefix "true" s with
  | Some r => POk (JBool true) r
  | None =>
      match strip_prefix "false" s with
      | Some r => POk (JBool false) r
      | None =>
          match strip_prefix "null" s with
          | Some r => POk JNull r
          | None => PErr
          end
      end
  end.

(** The scanner refuses more than 10000 nested arrays and objects. *)
Definition maxNestingDepth : Z := 10000.

Fixpoint value (fuel : nat) (depth : Z) (s : string) {struct fuel} : presult json :=
  match fuel with
  | O => PFuel
  | S f =>
      match skip_ws s with
      | EmptyString => PErr
      | String c r =>
          if code c =? 123 then
            if maxNestingDepth <? depth + 1 then PErr
            else
              match skip_ws r with
              | String c' r' =>
                  if code c' =? 125 then POk (JObject []) r'
                  else pmap JObject (members f (depth + 1) (String c' r'))
              | EmptyString => PErr
              end
          else if code c =? 91 then
            if maxNestingDepth <? depth + 1 then PErr
            else
              match skip_ws r with
              | String c' r' =>
                  if code c' =? 93 then POk (JArray []) r'
                  else pmap JArray (elements f (depth + 1) (String c' r'))
              | EmptyString => PErr
              end
          else if code c =? 34 then pmap JString (scan_string r)
          else if (code c =? 45) || is_digit c then
            pmap JNumber (scan_number (String c r))
          else scan_literal (String c r)
      end
  end

with elements (fuel : nat) (depth : Z) (s : string) {struct fuel}
    : presult (list json) :=
  match fuel with
  | O => PFuel
  | S f =>
      match value f depth s with
      | POk v r =>
          match skip_ws r with
          | String c r' =>
              if code c =? 44 then
                pmap (cons v) (elements f depth r')
              else if code c =? 93 then POk [v] r'
              else PErr
          | EmptyString => PErr
          end
      | PErr => PErr
      | PFuel => PFuel
      end
  end

with members (fuel : nat) (depth : Z) (s : string) {struct fuel}
    : presult (list (string * json)) :=
  match fuel with
  | O => PFuel
  | S f =>
      match skip_ws s with
      | String q r =>
          if code q =? 34 then
            match scan_string r with
            | POk key r1 =>
                match skip_ws r1 with
                | String c r2 =>
                    if code c =? 58 then
                      match value f depth r2 with
                      | POk v r3 =>
                          match skip_ws r3 with
                          | String c' r4 =>
                              if code c' =? 44 then
                                pmap (cons (key, v)) (members f depth r4)
                              else if code c' =? 125 then POk [(key, v)] r4
                              else PErr
                          | EmptyString => PErr
                          end
                      | PErr => PErr
                      | PFuel => PFuel
                      end
                    else PErr
                | EmptyString => PErr
                end
            | PErr => PErr
            | PFuel => PFuel
            end
          else PErr
      | EmptyString => PErr
      end
  end.

(** Recursion budget for an input: enough for any input of that length. *)
Definition budget (data : string) : nat := 2 * String.length data + 2.

(** The document of a well-formed JSON text; [None] is a [SyntaxError]. *)
Definition parse (data : string) : option json :=
  match value (budget data) 0 data with
  | POk j rest =>
      match skip_ws rest with
      | EmptyString => Some j
      | String _ _ => None
      end
  | PErr => None
  | PFuel => None
  end.

End JSON.
Import JSON.

(** Writes a JSON text with ['] where the text has the double quote. *)
Fixpoint js (s : string) : string :=
  match s with
  | String c r => String (if code c =? 39 then dq else c) (js r)
  | EmptyString => EmptyString
  end.

(** What [json.Unmarshal] reports. *)
Inductive decode_error : Type :=
| SyntaxError                                  (* json.SyntaxError *)
| UnmarshalTypeError (value field : string)    (* json.UnmarshalTypeError *)
| UnmarshalerError (msg : string).             (* returned by an UnmarshalJSON method *)

(** The values of Go's [error] interface that these functions can return,
    one constructor per origin. *)
Inductive error : Type :=
| URLError (msg : string)            (* http.NewRequest: the URL does not parse *)
| NilContextError                    (* http.NewRequestWithContext: nil context *)
| TransportError (msg : string)      (* the Do method of http.Client *)
| ReadError (msg : string)           (* ioutil.ReadAll *)
| StatusError (status : string)      (* errors.New(res.Status) *)
| DecodeError (e : decode_error).    (* json.Unmarshal *)

(** The second phase of [json.Unmarshal]: storing a document into a
    destination of type [T].  The destination is updated in place, so the
    result is the destination after the call together with the error (the
    first one met; decoding goes on after a type error). *)
Class JSONTarget (T : Type) : Type :=
  { store : json -> T -> T * option decode_error }.

(** [json.Unmarshal(data, &v)]. *)
Definition Unmarshal {T : Type} `{JSONTarget T} (data : string) (v : T)
    : T * option error :=
  match parse data with
  | None => (v, Some (DecodeError SyntaxError))
  | Some j => let (v', e) := store j v in (v', option_map DecodeError e)
  end.

Definition first_error (e1 e2 : option decode_error) : option decode_error :=
  match e1 with
  | Some _ => e1
  | None => e2
  end.

(** The name [UnmarshalTypeError.Value] gives to a document. *)
Definition describe (j : json) : string :=
  match j with
  | JNull => "null"
  | JBool _ => "bool"
  | JNumber _ => "number"
  | JString _ => "string"
  | JArray _ => "array"
  | JObject _ => "object"
  end.

(** Storing into a field of kind [string]. *)
Definition store_string (field : string) (j : json) (old : string)
    : string * option decode_error :=
  match j with
  | JString s => (s, None)
  | JNull => (old, None)
  | _ => (old, Some (UnmarshalTypeError (describe j) field))
  end.

Fixpoint digits_value (s : string) (acc : Z) : option Z :=
  match s with
  | String c r =>
      if is_digit c then digits_value r (acc * 10 + (code c - 48)) else None
  | EmptyString => Some acc
  end.

Definition minInt64 : Z := - 2 ^ 63.
Definition maxInt64 : Z := 2 ^ 63 - 1.

(** [strconv.ParseInt(s, 10, 64)]; [None] is its error. *)
Definition ParseInt (s : string) : option Z :=
  let (neg, ds) :=
    match s with
    | String c r =>
        if code c =? 45 then (true, r)
        else if code c =? 43 then (false, r)
        else (false, s)
    | EmptyString => (false, s)
    end in
  match ds with
  | EmptyString => None
  | _ =>
      match digits_value ds 0 with
      | Some n =>
          let n := if neg then - n else n in
          if (minInt64 <=? n) && (n <=? maxInt64) then Some n else None
      | None => None
      end
  end.

(** Storing into a field of kind [int]. *)
Definition store_int (field : string) (j : json) (old : Z)
    : Z * option decode_error :=
  match j with
  | JNumber lit =>
      match ParseInt lit with
      | Some n => (n, None)
      | None => (old, Some (UnmarshalTypeError ("number " ++ lit) field))
      end
  | JNull => (old, None)
  | _ => (old, Some (UnmarshalTypeError (describe j) field))
  end.

(** Case folding of an object key, for matching it with a field name: ASCII
    letters fold to lower case, and so do the Kelvin sign (to k) and the long
    s (to s), the two non-ASCII characters that fold to ASCII letters. *)
Fixpoint foldName (s : string) : string :=
  match s with
  | String a r =>
      let lower c := if (65 <=? code c) && (code c <=? 90)
                     then byte (code c + 32) else c in
      match r with
      | String b r' =>
          if (code a =? 197) && (code b =? 191) then String "s" (foldName r')
          else
            match r' with
            | String d r'' =>
                if (code a =? 226) && (code b =? 132) && (code d =? 170)
                then String "k" (foldName r'')
                else String (lower a) (foldName r)
            | EmptyString => String (lower a) (foldName r)
            end
      | EmptyString => String (lower a) EmptyString
      end
  | EmptyString => EmptyString
  end.

(** One member of a JSON object stored into an [AccessTokenRequest]; a key
    that names no field is skipped. *)
Definition store_member (acc : AccessTokenRequest * option decode_error)
    (m : string * json) : AccessTokenRequest * option decode_error :=
  let (t, err) := acc in
  let (key, j) := m in
  let k := foldName key in
  if (k =? "access_token")%string then
    let (v, e) := store_string "access_token" j (AccessToken t) in
    (mkAccessTokenRequest v (TokenType t) (ExpiresIn t) (Scope t), first_error err e)
  else if (k =? "token_type")%string then
    let (v, e) := store_string "token_type" j (TokenType t) in
    (mkAccessTokenRequest (AccessToken t) v (ExpiresIn t) (Scope t), first_error err e)
  else if (k =? "expires_in")%string then
    let (v, e) := store_int "expires_in" j (ExpiresIn t) in
    (mkAccessTokenRequest (AccessToken t) (TokenType t) v (Scope t), first_error err e)
  else if (k =? "scope")%string then
    let (v, e) := store_string "scope" j (Scope t) in
    (mkAccessTokenRequest (AccessToken t) (TokenType t) (ExpiresIn t) v, first_error err e)
  else (t, err).

(** Storing into an [AccessTokenRequest] structure: an object is stored
    member by member, in the order of the text; [null] changes nothing; any
    other document is a type error. *)
#[export] Instance AccessTokenRequest_target : JSONTarget AccessTokenRequest :=
  {| store j t :=
       match j with
       | JObject ms => fold_left store_member ms (t, None)
       | JNull => (t, None)
       | _ => (t, Some (UnmarshalTypeError (describe j) ""))
       end |}.

(** A Go [interface{}] that is nil, holds a non-nil pointer to a [T], or
    holds a generic value made by the decoder. *)
Inductive iface (T : Type) : Type :=
| nil_iface
| pointer (v : T)
| generic (j : json).
Arguments nil_iface {T}.
Arguments pointer {T} v.
Arguments generic {T} j.

(** Storing through an [interface{}]: the decoder follows a pointer held by
    the interface, except for [null], which it stores in the interface
    itself; an interface without a pointer receives the generic value. *)
#[export] Instance iface_target (T : Type) `{JSONTarget T} : JSONTarget (iface T) :=
  {| store j dat :=
       match j, dat with
       | JNull, _ => (nil_iface, None)
       | _, pointer v => let (v', e) := store j v in (pointer v', e)
       | _, _ => (generic j, None)
       end |}.

(* ================================================================== *)
(** * time *)

(** Wrap-around of 64-bit signed arithmetic. *)
Definition wrap64 (z : Z) : Z := (z + 2 ^ 63) mod 2 ^ 64 - 2 ^ 63.

(** [time.Duration]: a 64-bit count of nanoseconds. *)
Definition Duration := Z.
Definition minDuration : Duration := minInt64.
Definition maxDuration : Duration := maxInt64.
Definition Second : Duration := 1000000000.

(** [t.Sub(u)]: the difference, or the extreme duration when it does not
    fit in one. *)
Definition Sub (t u : Time) : Duration :=
  if t - u <? minDuration then minDuration
  else if maxDuration <? t - u then maxDuration
  else t - u.

(** [t.Add(d)] *)
Definition Add (t : Time) (d : Duration) : Time := t + d.

(* ================================================================== *)
(** * net/http and the world outside *)

(** [context.Context]: nil, or some context (told apart by the transport). *)
Inductive Context : Type :=
| nilContext
| context (id : nat).

(** An [*http.Request], as far as the library fills it.  [RawURL] is the
    string given to [http.NewRequest]; [Query] the parameters later set
    through [req.URL.Query()] and encoded back into [RawQuery]; [BasicAuth]
    the credentials given to [SetBasicAuth]. *)
Record Request : Type := mkRequest {
  Ctx : Context;
  Method : string;
  RawURL : string;
  Query : list (string * string);
  Header : list (string * string);
  BasicAuth : option (string * string);
  Body : string
}.

Definition assoc_set (k v : string) (l : list (string * string))
    : list (string * string) :=
  (k, v) :: filter (fun kv => negb (fst kv =? k)%string) l.

Definition Header_Set (k v : string) (r : Request) : Request :=
  mkRequest (Ctx r) (Method r) (RawURL r) (Query r)
    (assoc_set k v (Header r)) (BasicAuth r) (Body r).

Definition Query_Set (k v : string) (r : Request) : Request :=
  mkRequest (Ctx r) (Method r) (RawURL r) (assoc_set k v (Query r))
    (Header r) (BasicAuth r) (Body r).

Definition SetBasicAuth (username password : string) (r : Request) : Request :=
  mkRequest (Ctx r) (Method r) (RawURL r) (Query r) (Header r)
    (Some (username, password)) (Body r).

(** An [*http.Response]: the status, and what [ioutil.ReadAll(res.Body)]
    returns, the bytes read and the error that stopped the reading, if any. *)
Record Response : Type := mkResponse {
  StatusCode : Z;
  Status : string;
  ReadAll : string * option error
}.

Definition StatusOK : Z := 200.

(** One call of [Do]: the wall-clock time it took (reading the body
    included) and what it returned. *)
Record Exchange : Type := mkExchange {
  elapsed : Duration;
  reply : Response + error
}.

(** What the program does to the outside, in order. *)
Inductive Event : Type :=
| EvDo (cl : HTTPClient) (req : Request)   (* a request handed to Do *)
| EvUnmarshal (data : string).             (* a call of json.Unmarshal *)

(** The outside, as seen by the program: the wall clock and the events so
    far. *)
Record World : Type := mkWorld {
  now : Time;
  trace : list Event
}.

(** The parts of the outside that answer the program: whether [url.Parse]
    accepts a URL (its error otherwise), and what the transport returns for
    a request, given everything that happened before. *)
Class Network : Type := {
  parseURL : string -> option error;
  roundTrip : list Event -> HTTPClient -> Request -> Exchange
}.

(** A run of Go code from a world: it returns a value, or panics. *)
Inductive run (A : Type) : Type :=
| Done (a : A) (w : World)
| Panic (msg : string) (w : World).
Arguments Done {A} a w.
Arguments Panic {A} msg w.

Definition IO (A : Type) : Type := World -> run A.

Definition ret {A : Type} (a : A) : IO A := fun w => Done a w.

Definition bind {A B : Type} (m : IO A) (k : A -> IO B) : IO B :=
  fun w =>
    match m w with
    | Done a w' => k a w'
    | Panic msg w' => Panic msg w'
    end.

Notation "x <- m ;; k" := (bind m (fun x => k))
  (at level 61, m at next level, right associativity).
Notation "' p <- m ;; k" := (bind m (fun x => match x with p => k end))
  (at level 61, p pattern, m at next level, right associativity).

(** [time.Now().UTC()] *)
Definition time_Now : IO Time := fun w => Done (now w) w.

(** [json.Unmarshal(data, &v)], recorded in the trace. *)
Definition json_Unmarshal {T : Type} `{JSONTarget T} (data : string) (v : T)
    : IO (T * option error) :=
  fun w => Done (Unmarshal data v)
             (mkWorld (now w) (trace w ++ [EvUnmarshal data])).

Section Program.

Context {net : Network}.

(** [http.NewRequestWithContext(ctx, method, url, body)], for the methods
    GET and POST. *)
Definition NewRequestWithContext (ctx : Context) (method url body : string)
    : Request + error :=
  match ctx with
  | nilContext => inr NilContextError
  | context _ =>
      match parseURL url with
      | Some err => inr err
      | None => inl (mkRequest ctx method url [] [] None body)
      end
  end.

(** [http.NewRequest(method, url, body)]: the same with the background
    context. *)
Definition NewRequest (method url body : string) : Request + error :=
  NewRequestWithContext (context 0) method url body.

(** [cl.Do(req)].  A nil client is dereferenced by [Do]. *)
Definition Do (cl : HTTPClient) (req : Request) : IO (Response + error) :=
  fun w =>
    match cl with
    | NilClient =>
        Panic "runtime error: invalid memory address or nil pointer dereference" w
    | _ =>
        let x := roundTrip (trace w) cl req in
        Done (reply x) (mkWorld (now w + elapsed x) (trace w ++ [EvDo cl req]))
    end.

(* ---------------------------------------------------------------- *)
(** ** oauth.go *)

(** Modelled from the spec: oauth.go reads the OAuth base URL as
    [c.oauthURL], a field the [Client] structure of the sources does not
    declare; the token, introspection and user-information endpoints are
    those of the OAuth host, which the structure declares as [oauthHost]. *)
Definition oauthURL (c : Client) : string := oauthHost c.

Definition set_AccessTokenRequest v (o : OAuth) : OAuth :=
  mkOAuth (ClientID o) (ClientSecret o) v (ExpiresAt o).
Definition set_ExpiresAt v (o : OAuth) : OAuth :=
  mkOAuth (ClientID o) (ClientSecret o) (AccessTokenRequest_ o) v.

(** [func (c *Client) AccessTokenReq() error] *)
Definition AccessTokenReq (c : Client) : IO (option error * Client) :=
  match NewRequest "POST" (oauthURL c ++ "/oauth/token")
          "grant_type=client_credentials" with
  | inr err => ret (Some err, c)
  | inl req =>
      let req := SetBasicAuth (ClientID (oauth c)) (ClientSecret (oauth c)) req in
      let req := Header_Set "Content-Type" "application/x-www-form-urlencoded" req in
      res <- Do (client c) req ;;
      match res with
      | inr err => ret (Some err, c)
      | inl res =>
          let (b, rerr) := ReadAll res in
          match rerr with
          | Some err => ret (Some err, c)
          | None =>
              (* the destination is the stored token itself *)
              '(tok, jerr) <- json_Unmarshal b (AccessTokenRequest_ (oauth c)) ;;
              let c := set_oauth (set_AccessTokenRequest tok (oauth c)) c in
              match jerr with
              | Some err => ret (Some err, c)
              | None =>
                  t <- time_Now ;;
                  let d := wrap64 (Second * ExpiresIn (AccessTokenRequest_ (oauth c))) in
                  ret (None, set_oauth (set_ExpiresAt (Add t d) (oauth c)) c)
              end
          end
      end
  end.

(** [func (c *Client) updateAccessTokenIfExp() error] *)
Definition updateAccessTokenIfExp (c : Client) : IO (option error * Client) :=
  t <- time_Now ;;
  if Sub (ExpiresAt (oauth c)) t <? 60 then
    '(err, c) <- AccessTokenReq c ;;
    match err with
    | Some e => ret (Some e, c)
    | None => ret (None, c)
    end
  else ret (None, c).

(** [func (c *Client) TokenValidation()], which returns a pointer to an
    [oauth.TokenValidation], the body and the error; written for any
    structure [V] in the place of [oauth.TokenValidation] (declared in the
    [oauth] sub-package), [zero] being its zero value. *)
Definition TokenValidation {V : Type} `{JSONTarget V} (zero : V) (c : Client)
    : IO (V * string * option error * Client) :=
  let dat := zero in
  let b := "" in
  '(err, c) <- updateAccessTokenIfExp c ;;
  match err with
  | Some e => ret (dat, b, Some e, c)
  | None =>
      match NewRequest "GET"
              (oauthURL c ++ "/oauth/check_token?token="
                 ++ AccessToken (AccessTokenRequest_ (oauth c))) "" with
      | inr e => ret (dat, b, Some e, c)
      | inl req =>
          let req := Header_Set "Accept" "application/json" req in
          res <- Do (client c) req ;;
          match res with
          | inr e => ret (dat, b, Some e, c)
          | inl res =>
              let (b, rerr) := ReadAll res in
              match rerr with
              | Some e => ret (dat, b, Some e, c)
              | None =>
                  '(dat, jerr) <- json_Unmarshal b dat ;;
                  match jerr with
                  | Some e => ret (dat, b, Some e, c)
                  | None => ret (dat, b, None, c)
                  end
              end
          end
      end
  end.

(* ---------------------------------------------------------------- *)
(** ** blizzard.go: the request templates *)

Definition with_namespace (namespace : string) (req : Request) : Request :=
  if (namespace =? "")%string then req
  else Header_Set "Battlenet-Namespace" namespace req.

(** [func (c *Client) getStructData(ctx, pathAndQuery, namespace, dat)],
    which returns [dat], the body and the error. *)
Definition getStructData {D : Type} `{JSONTarget D} (c : Client) (ctx : Context)
    (pathAndQuery namespace : string) (dat : D) : IO (D * string * option error) :=
  match NewRequestWithContext ctx "GET" (apiHost c ++ pathAndQuery) "" with
  | inr err => ret (dat, "", Some err)
  | inl req =>
      let req := Header_Set "Accept" "application/json" req in
      let req := Query_Set "locale" (Locale_String (locale c)) req in
      let req := with_namespace namespace req in
      res <- Do (client c) req ;;
      match res with
      | inr err => ret (dat, "", Some err)
      | inl res =>
          let (body, rerr) := ReadAll res in
          match rerr with
          | Some err => ret (dat, "", Some err)
          | None =>
              if negb (StatusCode res =? StatusOK) then
                ret (dat, body, Some (StatusError (Status res)))
              else
                '(dat, jerr) <- json_Unmarshal body dat ;;
                match jerr with
                | Some err => ret (dat, body, Some err)
                | None => ret (dat, body, None)
                end
          end
      end
  end.

(** [func (c *Client) getStructDataNoLocale(ctx, pathAndQuery, namespace, dat)] *)
Definition getStructDataNoLocale {D : Type} `{JSONTarget D} (c : Client)
    (ctx : Context) (pathAndQuery namespace : string) (dat : D)
    : IO (D * string * option error) :=
  match NewRequestWithContext ctx "GET" (apiHost c ++ pathAndQuery) "" with
  | inr err => ret (dat, "", Some err)
  | inl req =>
      let req := Header_Set "Accept" "application/json" req in
      let req := with_namespace namespace req in
      res <- Do (client c) req ;;
      match res with
      | inr err => ret (dat, "", Some err)
      | inl res =>
          let (body, rerr) := ReadAll res in
          match rerr with
          | Some err => ret (dat, "", Some err)
          | None =>
              if negb (StatusCode res =? StatusOK) then
                ret (dat, body, Some (StatusError (Status res)))
              else
                '(dat, jerr) <- json_Unmarshal body dat ;;
                match jerr with
                | Some err => ret (dat, body, Some err)
                | None => ret (dat, body, None)
                end
          end
      end
  end.

(** [func (c *Client) getStructDataOAuth(ctx, pathAndQuery, namespace, token, dat)] *)
Definition getStructDataOAuth {D : Type} `{JSONTarget D} (c : Client)
    (ctx : Context) (pathAndQuery namespace : string) (token : Token) (dat : D)
    : IO (D * string * option error) :=
  match NewRequestWithContext ctx "GET" (apiHost c ++ pathAndQuery) "" with
  | inr err => ret (dat, "", Some err)
  | inl req =>
      let req := Header_Set "Accept" "application/json" req in
      let req := Query_Set "locale" (Locale_String (locale c)) req in
      let req := with_namespace namespace req in
      let client := AuthorizedClient token in
      res <- Do client req ;;
      match res with
      | inr err => ret (dat, "", Some err)
      | inl res =>
          let (body, rerr) := ReadAll res in
          match rerr with
          | Some err => ret (dat, "", Some err)
          | None =>
              if negb (StatusCode res =? StatusOK) then
                ret (dat, body, Some (StatusError (Status res)))
              else
                '(dat, jerr) <- json_Unmarshal body dat ;;
                match jerr with
                | Some err => ret (dat, body, Some err)
                | None => ret (dat, body, None)
                end
          end
      end
  end.

End Program.

(* ================================================================== *)
(** * The three templates as one operation *)

(** Which of the three request templates runs: with the locale, without the
    locale, or with the locale and a caller-supplied OAuth token. *)
Inductive Variant : Type :=
| WithLocale
| NoLocale
| Delegated (token : Token).

Section Execute.

Context {net : Network} {D : Type} {target : JSONTarget D}.

Definition execute (v : Variant) (c : Client) (ctx : Context)
    (pathAndQuery namespace : string) (dat : D) : IO (D * string * option error) :=
  match v with
  | WithLocale => getStructData c ctx pathAndQuery namespace dat
  | NoLocale => getStructDataNoLocale c ctx pathAndQuery namespace dat
  | Delegated token => getStructDataOAuth c ctx pathAndQuery namespace token dat
  end.

(** The request a template hands to [Do], or the error of building it. *)
Definition request_of (v : Variant) (c : Client) (ctx : Context)
    (pathAndQuery namespace : string) : Request + error :=
  match NewRequestWithContext ctx "GET" (apiHost c ++ pathAndQuery) "" with
  | inr err => inr err
  | inl req =>
      let req := Header_Set "Accept" "application/json" req in
      let req :=
        match v with
        | NoLocale => req
        | _ => Query_Set "locale" (Locale_String (locale c)) req
        end in
      inl (with_namespace namespace req)
  end.

(** The HTTP client a template calls [Do] on. *)
Definition client_of (v : Variant) (c : Client) : HTTPClient :=
  match v with
  | Delegated token => AuthorizedClient token
  | _ => client c
  end.

(** What follows [Do] in the three templates: read the body, check the
    status, decode. *)
Definition finish (dat : D) (res : Response + error)
    : IO (D * string * option error) :=
  match res with
  | inr err => ret (dat, "", Some err)
  | inl res =>
      let (body, rerr) := ReadAll res in
      match rerr with
      | Some err => ret (dat, "", Some err)
      | None =>
          if negb (StatusCode res =? StatusOK) then
            ret (dat, body, Some (StatusError (Status res)))
          else
            '(dat, jerr) <- json_Unmarshal body dat ;;
            match jerr with
            | Some err => ret (dat, body, Some err)
            | None => ret (dat, body, None)
            end
      end
  end.

End Execute.

(** The data handed to [json.Unmarshal] along a trace, in order. *)
Fixpoint decoded (tr : list Event) : list string :=
  match tr with
  | EvUnmarshal data :: tr' => data :: decoded tr'
  | EvDo _ _ :: tr' => decoded tr'
  | [] => []
  end.

(** The requests handed to [Do] along a trace, in order. *)
Fixpoint requests (tr : list Event) : list Request :=
  match tr with
  | EvDo _ req :: tr' => req :: requests tr'
  | EvUnmarshal _ :: tr' => requests tr'
  | [] => []
  end.

(* ================================================================== *)
(** * Scripted networks, for running the code on examples *)

(** A network in which every URL parses and the [n]-th call of [Do] gets the
    [n]-th scripted answer (a connection failure once the script is over). *)
Definition scripted (answers : list Exchange) : Network :=
  {| parseURL := fun _ => None;
     roundTrip := fun tr _ _ =>
       nth (List.length (requests tr)) answers
         (mkExchange 0 (inr (TransportError "connection refused"))) |}.

(** A client of region US holding the token ["OLD"], issued for 86399
    seconds and expiring at instant [expiresAt]. *)
Definition client_with_token (expiresAt : Time) : Client :=
  let c := NewClient "id" "secret" US "en_US" in
  set_oauth (mkOAuth "id" "secret"
               (mkAccessTokenRequest "OLD" "bearer" 86399 "") expiresAt) c.

(** The request [AccessTokenReq] hands to [Do]. *)
Definition token_request (c : Client) : Request :=
  mkRequest (context 0) "POST" (oauthHost c ++ "/oauth/token") []
    [("Content-Type", "application/x-www-form-urlencoded")]
    (Some (ClientID (oauth c), ClientSecret (oauth c)))
    "grant_type=client_credentials".

(** The world after a call of [Do]: the clock has advanced by the time the
    exchange took and the request is on the trace. *)
Definition after_Do {net : Network} (cl : HTTPClient) (req : Request) (w : World)
    : World :=
  mkWorld (now w + elapsed (roundTrip (trace w) cl req)) (trace w ++ [EvDo cl req]).

(** The client with another token and expiry. *)
Definition with_token (tok : AccessTokenRequest) (expiresAt : Time) (c : Client)
    : Client :=
  set_oauth (mkOAuth (ClientID (oauth c)) (ClientSecret (oauth c)) tok expiresAt) c.

(** Answers of the token endpoint and of the API, for the examples: each
    takes a quarter of a second. *)
Definition respond (res : Response) : Exchange := mkExchange 250000000 (inl res).

Definition res_token_granted : Response :=
  mkResponse 200 "200 OK"
    (js "{'access_token':'NEW','token_type':'bearer','expires_in':3600}", None).

Definition res_token_refused : Response :=
  mkResponse 401 "401 Unauthorized" (js "{'error':'invalid_client'}", None).

Definition res_token_ill_typed : Response :=
  mkResponse 200 "200 OK" (js "{'access_token':'NEW','expires_in':'soon'}", None).

Definition res_not_found : Response :=
  mkResponse 404 "404 Not Found"
    (js "{'code':404,'type':'BLZWEBAPI00000404','detail':'Not Found'}", None).

Definition res_malformed : Response :=
  mkResponse 200 "200 OK" (js "{'access_token':", None).

(** A response whose body stops arriving after eighteen bytes. *)
Definition res_truncated : Response :=
  mkResponse 200 "200 OK"
    (js "{'access_token':'N", Some (ReadError "unexpected EOF")).

Definition token_granted : Exchange := respond res_token_granted.
Definition token_refused : Exchange := respond res_token_refused.
Definition token_ill_typed : Exchange := respond res_token_ill_typed.

(** The request [getStructData] builds for the path ["/data/sc2/ladder/1"],
    without namespace, on a client of region US and locale en_US. *)
Definition ladder_request : Request :=
  mkRequest (context 1) "GET" "https://us.api.blizzard.com/data/sc2/ladder/1"
    [("locale", "en_US")] [("Accept", "application/json")] None "".

(** A destination for the examples: an interface holding a pointer to an
    empty token structure. *)
Definition empty_destination : iface AccessTokenRequest :=
  pointer (mkAccessTokenRequest "" "" 0 "").

(* ================================================================== *)
(** * The rest of oauth.go and blizzard.go, and the StarCraft II wrappers *)

(** [req.Header.Get(key)], [None] when the header is not set. *)
Fixpoint assoc_get (k : string) (l : list (string * string)) : option string :=
  match l with
  | [] => None
  | (k', v) :: r => if (k' =? k)%string then Some v else assoc_get k r
  end.

Definition Header_Get (k : string) (r : Request) : option string :=
  assoc_get k (Header r).

(** [strings.Replace(s, old, new, n)] for an [old] of one byte: the first
    [n] occurrences are replaced, all of them when [n] is negative. *)
Fixpoint Replace (s : string) (old : ascii) (new : string) (n : Z) : string :=
  match s with
  | EmptyString => EmptyString
  | String a r =>
      if n =? 0 then s
      else if Ascii.eqb a old then (new ++ Replace r old new (n - 1))%string
      else String a (Replace r old new n)
  end.

(** [func formatAccount(account string) string] *)
Definition formatAccount (account : string) : string :=
  Replace account "#" "-" 1.

(** [fmt.Sprintf(format, args...)] for formats made of literal text and
    [%d] verbs with integer operands, as many operands as verbs or fewer. *)
Fixpoint Sprintf_d (format : string) (args : list Z) : string :=
  match format with
  | String "%" (String "d" rest) =>
      match args with
      | a :: args' => (itoa a ++ Sprintf_d rest args')%string
      | [] => ("%!d(MISSING)" ++ Sprintf_d rest [])%string
      end
  | String a rest => String a (Sprintf_d rest args)
  | EmptyString => EmptyString
  end.

(** The dynamic type of a generic value made by the decoder, as a failed
    type assertion prints it. *)
Definition dynamic_type (j : json) : string :=
  match j with
  | JNull => "nil"
  | JBool _ => "bool"
  | JNumber _ => "float64"
  | JString _ => "string"
  | JArray _ => "[]interface {}"
  | JObject _ => "map[string]interface {}"
  end.

(** The type assertion of [dat] to a pointer type, [type_name] being the
    name of that type: it gives the pointer held by the interface and panics
    on anything else. *)
Definition assert_pointer {T : Type} (type_name : string) (dat : iface T)
    : outcome T :=
  match dat with
  | pointer v => Returns v
  | nil_iface =>
      Panics ("interface conversion: interface {} is nil, not " ++ type_name)
  | generic j =>
      Panics ("interface conversion: interface {} is " ++ dynamic_type j
              ++ ", not " ++ type_name)
  end.

Section Wrappers.

Context {net : Network}.

(** [func (c *Client) UserInfoHeader() ([]byte, error)] *)
Definition UserInfoHeader (c : Client) : IO (string * option error * Client) :=
  '(err, c) <- updateAccessTokenIfExp c ;;
  match err with
  | Some e => ret ("", Some e, c)
  | None =>
      match NewRequest "GET" (oauthURL c ++ "/oauth/userinfo") "" with
      | inr e => ret ("", Some e, c)
      | inl req =>
          let req := Header_Set "Authorization"
                       ("Bearer " ++ AccessToken (AccessTokenRequest_ (oauth c)))
                       req in
          let req := Header_Set "Accept" "application/json" req in
          res <- Do (client c) req ;;
          match res with
          | inr e => ret ("", Some e, c)
          | inl res =>
              let (b, rerr) := ReadAll res in
              match rerr with
              | Some e => ret ("", Some e, c)
              | None => ret (b, None, c)
              end
          end
      end
  end.

(** [func (c *Client) SC2LeagueData(ctx, seasonID, queueID, teamType, leagueID)],
    for any structure [League] in the place of [sc2gd.League]; [zero] is
    the value of [sc2gd.League{}], and the identifiers of the [sc2gd]
    package are integers. *)
Definition SC2LeagueData {League : Type} `{JSONTarget League} (zero : League)
    (c : Client) (ctx : Context) (seasonID queueID teamType leagueID : Z)
    : IO (League * string * option error) :=
  '(dat, b, err) <-
    getStructData c ctx
      (Sprintf_d "/data/sc2/league/%d/%d/%d/%d"
         [seasonID; queueID; teamType; leagueID])
      "" (pointer zero) ;;
  match assert_pointer "*sc2gd.League" dat with
  | Returns v => ret (v, b, err)
  | Panics msg => fun w => Panic msg w
  end.

(** [func (c *Client) SC2LadderData(ctx, ladderID)], for any structure
    [Ladder] in the place of [sc2gd.Ladder]. *)
Definition SC2LadderData {Ladder : Type} `{JSONTarget Ladder} (zero : Ladder)
    (c : Client) (ctx : Context) (ladderID : Z)
    : IO (Ladder * string * option error) :=
  '(dat, b, err) <-
    getStructData c ctx (Sprintf_d "/data/sc2/ladder/%d" [ladderID])
      "" (pointer zero) ;;
  match assert_pointer "*sc2gd.Ladder" dat with
  | Returns v => ret (v, b, err)
  | Panics msg => fun w => Panic msg w
  end.

End Wrappers.

(** The request [UserInfoHeader] hands to [Do]. *)
Definition userinfo_request (c : Client) : Request :=
  mkRequest (context 0) "GET" (oauthHost c ++ "/oauth/userinfo") []
    [("Accept", "application/json");
     ("Authorization", "Bearer " ++ AccessToken (AccessTokenRequest_ (oauth c)))]
    None "".

(** The request [TokenValidation] hands to [Do]. *)
Definition validation_request (c : Client) : Request :=
  mkRequest (context 0) "GET"
    (oauthHost c ++ "/oauth/check_token?token="
       ++ AccessToken (AccessTokenRequest_ (oauth c)))
    [] [("Accept", "application/json")] None "".

(** Calls of the two setters of the client. *)
Inductive setter : Type :=
| CallSetRegion (region : Region)
| CallSetLocale (locale : Locale).

Definition call (c : Client) (s : setter) : Client :=
  match s with
  | CallSetRegion region => SetRegion region c
  | CallSetLocale locale => SetLocale locale c
  end.

(** The bytes of a string. *)
Definition bytes_of (s : string) : list ascii := list_ascii_of_string s.

(** A response 200 whose body is the JSON text null. *)
Definition res_null : Response := mkResponse 200 "200 OK" (" null ", None).

(** The request [getStructData] builds for a path, without namespace, in
    the context [context id]. *)
Definition api_request (c : Client) (id : nat) (pathAndQuery : string) : Request :=
  mkRequest (context id) "GET" (apiHost c ++ pathAndQuery)
    [("locale", locale c)] [("Accept", "application/json")] None "".

(** The world a run ends in, whether it returns or panics. *)
Definition world_of {A : Type} (r : run A) : World :=
  match r with
  | Done _ w => w
  | Panic _ w => w
  end.

(** A network whose [url.Parse] rejects every URL. *)
Definition rejecting (msg : string) : Network :=
  {| parseURL := fun _ => Some (URLError msg);
     roundTrip := fun _ _ _ =>
       mkExchange 0 (inr (TransportError "connection refused")) |}.

(** Clients and a world for the examples: a token that expired, a token
    good for another hour. *)
Definition demo_world : World := mkWorld 2000 [].
Definition expired_client : Client := client_with_token 1000.
Definition fresh_client : Client := client_with_token (2000 + 3600 * Second).

(** The expired client after a granted refresh, and the world then. *)
Definition refreshed_client : Client :=
  with_token (mkAccessTokenRequest "NEW" "bearer" 3600 "")
    (250002000 + 3600 * Second) expired_client.

Definition refreshed_world : World :=
  mkWorld 250002000
    [EvDo (client expired_client) (token_request expired_client);
     EvUnmarshal (fst (ReadAll res_token_granted))].

(** The world after a refresh that found nobody listening. *)
Definition refused_world : World :=
  mkWorld 2000 [EvDo (client expired_client) (token_request expired_client)].

(** The zero value of [Client], as [Client{}] gives it. *)
Definition zero_client : Client :=
  mkClient NilClient (mkConfig "" "" "")
    (mkOAuth "" "" (mkAccessTokenRequest "" "" 0 "") 0)
    "" "" "" "" "" "" "" 0 "".

(** Case analysis on every test met while unfolding a scanner. *)
Ltac break_match :=
  repeat match goal with
    | H : context [match ?x with _ => _ end] |- _ =>
        destruct x eqn:?; try discriminate
    end.

(* ================================================================== *)
(** * Properties of the JSON scanner *)

Module JSONFacts.

Lemma skip_ws_length (s : string) :
  (String.length (skip_ws s) <= String.length s)%nat.
Proof.
  induction s as [|c r IH]; simpl; [lia|].
  destruct (is_ws c); simpl; lia.
Qed.

Lemma skip_ws_cons (s r : string) (c : ascii) :
  skip_ws s = String c r -> (String.length r < String.length s)%nat.
Proof.
  intros E. pose proof (skip_ws_length s) as L. rewrite E in L. simpl in L. lia.
Qed.

Lemma pmap_ok {A B : Type} (f : A -> B) (p : presult A) (b : B) (r : string) :
  pmap f p = POk b r -> exists a, p = POk a r /\ b = f a.
Proof.
  destruct p; simpl; intros E; inversion E; subst; eauto.
Qed.

Lemma pmap_fuel {A B : Type} (f : A -> B) (p : presult A) :
  pmap f p = PFuel -> p = PFuel.
Proof. destruct p; simpl; intros E; congruence. Qed.

Lemma scan_string_length_le (n : nat) :
  forall (s a r : string),
    (String.length s <= n)%nat -> scan_string s = POk a r ->
    (String.length r < String.length s)%nat.
Proof.
  induction n as [|n IH]; intros s a r Hn E.
  - destruct s; simpl in *; [discriminate | lia].
  - destruct s as [|c s]; simpl in E; [discriminate|].
    simpl in Hn.
    break_match;
      try (inversion E; subst; simpl; lia);
      unfold prepend in E; apply pmap_ok in E; destruct E as (a' & E & _);
      apply IH in E; simpl in *; lia.
Qed.

Lemma scan_string_length (s a r : string) :
  scan_string s = POk a r -> (String.length r < String.length s)%nat.
Proof. apply scan_string_length_le with (n := String.length s). lia. Qed.

Lemma scan_string_no_fuel_le (n : nat) :
  forall s : string, (String.length s <= n)%nat -> scan_string s <> PFuel.
Proof.
  induction n as [|n IH]; intros s Hn E.
  - destruct s; simpl in *; [discriminate | lia].
  - destruct s as [|c s]; simpl in E; [discriminate|].
    simpl in Hn.
    break_match;
      (unfold prepend in E; apply pmap_fuel in E;
       eapply IH; [|exact E]; simpl in *; lia).
Qed.

Lemma scan_string_no_fuel (s : string) : scan_string s <> PFuel.
Proof. apply scan_string_no_fuel_le with (n := String.length s). lia. Qed.

Lemma digits_length (s ds r : string) :
  digits s = (ds, r) -> (String.length r <= String.length s)%nat.
Proof.
  revert ds r. induction s as [|c s IH]; simpl; intros ds r E.
  - inversion E; subst; simpl; lia.
  - destruct (is_digit c).
    + destruct (digits s) as [ds' r'] eqn:Ed. inversion E; subst.
      specialize (IH _ _ eq_refl). lia.
    + inversion E; subst; simpl; lia.
Qed.

Lemma scan_exponent_length (lit s a r : string) :
  scan_exponent lit s = POk a r -> (String.length r <= String.length s)%nat.
Proof.
  unfold scan_exponent. intros E.
  destruct s as [|e s]; [inversion E; subst; simpl; lia|].
  destruct ((code e =? 101) || (code e =? 69)); [|inversion E; subst; simpl; lia].
  destruct s as [|g s'].
  - simpl in E. discriminate.
  - destruct ((code g =? 43) || (code g =? 45)).
    + destruct (digits s') as [ds rest] eqn:Ed. apply digits_length in Ed.
      destruct ds; [discriminate|]. inversion E; subst. simpl. lia.
    + destruct (digits (String g s')) as [ds rest] eqn:Ed. apply digits_length in Ed.
      destruct ds; [discriminate|]. inversion E; subst. simpl in *. lia.
Qed.

Lemma scan_fraction_length (lit s a r : string) :
  scan_fraction lit s = POk a r -> (String.length r <= String.length s)%nat.
Proof.
  unfold scan_fraction. intros E.
  destruct s as [|d s]; [inversion E; subst; simpl; lia|].
  destruct (code d =? 46).
  - destruct (digits s) as [ds rest] eqn:Ed. apply digits_length in Ed.
    destruct ds; [discriminate|]. apply scan_exponent_length in E. simpl. lia.
  - apply scan_exponent_length in E. assumption.
Qed.

Lemma scan_number_length (s a r : string) :
  scan_number s = POk a r -> (String.length r < String.length s)%nat.
Proof.
  unfold scan_number. intros E.
  destruct s as [|m s]; [discriminate|].
  destruct (code m =? 45).
  - destruct s as [|c s]; [discriminate|].
    destruct (code c =? 48).
    + apply scan_fraction_length in E. simpl. lia.
    + destruct (is_digit c); [|discriminate].
      destruct (digits s) as [ds rest] eqn:Ed. apply digits_length in Ed.
      apply scan_fraction_length in E. simpl. lia.
  - destruct (code m =? 48).
    + apply scan_fraction_length in E. simpl. lia.
    + destruct (is_digit m); [|discriminate].
      destruct (digits s) as [ds rest] eqn:Ed. apply digits_length in Ed.
      apply scan_fraction_length in E. simpl. lia.
Qed.

Lemma scan_exponent_no_fuel (lit s : string) : scan_exponent lit s <> PFuel.
Proof.
  unfold scan_exponent. intros E. break_match.
Qed.

Lemma scan_fraction_no_fuel (lit s : string) : scan_fraction lit s <> PFuel.
Proof.
  unfold scan_fraction. intros E.
  break_match; eapply scan_exponent_no_fuel; eassumption.
Qed.

Lemma scan_number_no_fuel (s : string) : scan_number s <> PFuel.
Proof.
  unfold scan_number. intros E.
  break_match; eapply scan_fraction_no_fuel; eassumption.
Qed.

Lemma strip_prefix_length (p s r : string) :
  strip_prefix p s = Some r ->
  String.length s = (String.length p + String.length r)%nat.
Proof.
  revert s. induction p as [|a p IH]; intros [|b s] E; simpl in *;
    try discriminate; try (inversion E; subst; reflexivity).
  destruct (Ascii.eqb a b); [|discriminate].
  apply IH in E. lia.
Qed.

Lemma scan_literal_length (s : string) (j : json) (r : string) :
  scan_literal s = POk j r -> (String.length r < String.length s)%nat.
Proof.
  unfold scan_literal. intros E.
  break_match;
    match goal with
    | H : strip_prefix _ _ = Some _ |- _ =>
        apply strip_prefix_length in H; simpl in H
    end; inversion E; subst; lia.
Qed.

Lemma scan_literal_no_fuel (s : string) : scan_literal s <> PFuel.
Proof. unfold scan_literal. intros E. break_match. Qed.

(** Every scanner consumes input: what is left is shorter. *)
Lemma scanners_consume (fuel : nat) :
  (forall depth s j r,
      value fuel depth s = POk j r ->
      (String.length r < String.length s)%nat) /\
  (forall depth s l r,
      elements fuel depth s = POk l r ->
      (String.length r < String.length s)%nat) /\
  (forall depth s l r,
      members fuel depth s = POk l r ->
      (String.length r < String.length s)%nat).
Proof.
  induction fuel as [|f (IHv & IHe & IHm)];
    [repeat split; intros; discriminate|].
  repeat split; intros depth s x r E; simpl in E.
  - (* value *)
    destruct (skip_ws s) as [|c t] eqn:Es; [discriminate|].
    apply skip_ws_cons in Es.
    break_match;
      try (inversion E; subst;
           repeat match goal with
             | H : skip_ws _ = String _ _ |- _ => apply skip_ws_cons in H
             end; lia);
      try (apply pmap_ok in E; destruct E as (? & E & _));
      repeat match goal with
        | H : skip_ws _ = String _ _ |- _ => apply skip_ws_cons in H
        | H : members _ _ _ = POk _ _ |- _ => apply IHm in H; simpl in H
        | H : elements _ _ _ = POk _ _ |- _ => apply IHe in H; simpl in H
        | H : scan_string _ = POk _ _ |- _ => apply scan_string_length in H
        | H : scan_number _ = POk _ _ |- _ =>
            apply scan_number_length in H; simpl in H
        | H : scan_literal _ = POk _ _ |- _ =>
            apply scan_literal_length in H; simpl in H
        end; try lia.
  - (* elements *)
    destruct (value f depth s) as [v t| |] eqn:Ev; try discriminate.
    apply IHv in Ev.
    break_match;
      try (apply pmap_ok in E; destruct E as (? & E & _); apply IHe in E);
      try (inversion E; subst);
      repeat match goal with
        | H : skip_ws _ = String _ _ |- _ => apply skip_ws_cons in H
        end; lia.
  - (* members *)
    break_match;
      try (apply pmap_ok in E; destruct E as (? & E & _); apply IHm in E);
      try (inversion E; subst);
      repeat match goal with
        | H : skip_ws _ = String _ _ |- _ => apply skip_ws_cons in H
        | H : value _ _ _ = POk _ _ |- _ => apply IHv in H
        | H : scan_string _ = POk _ _ |- _ => apply scan_string_length in H
        end; lia.
Qed.

(** With a budget of twice the length of the input (and a little), no
    scanner runs out of budget. *)
Lemma scanners_have_budget (fuel : nat) :
  (forall depth s,
      (2 * String.length s + 1 <= fuel)%nat -> value fuel depth s <> PFuel) /\
  (forall depth s,
      (2 * String.length s + 2 <= fuel)%nat -> elements fuel depth s <> PFuel) /\
  (forall depth s,
      (2 * String.length s + 2 <= fuel)%nat -> members fuel depth s <> PFuel).
Proof.
  induction fuel as [|f (IHv & IHe & IHm)];
    [repeat split; intros; lia|].
  repeat split; intros depth s Hf E; simpl in E;
    break_match;
    repeat match goal with
      | H : pmap _ _ = PFuel |- _ => apply pmap_fuel in H
      | H : skip_ws _ = String _ _ |- _ => apply skip_ws_cons in H
      | H : value _ _ _ = POk _ _ |- _ =>
          apply (proj1 (scanners_consume _)) in H
      | H : scan_string _ = POk _ _ |- _ => apply scan_string_length in H
      end;
    match goal with
    | H : members _ _ _ = PFuel |- _ => eapply IHm; [|exact H]; simpl in *; lia
    | H : elements _ _ _ = PFuel |- _ => eapply IHe; [|exact H]; simpl in *; lia
    | H : value _ _ _ = PFuel |- _ => eapply IHv; [|exact H]; simpl in *; lia
    | H : scan_string _ = PFuel |- _ => exact (scan_string_no_fuel _ H)
    | H : scan_number _ = PFuel |- _ => exact (scan_number_no_fuel _ H)
    | H : scan_literal _ = PFuel |- _ => exact (scan_literal_no_fuel _ H)
    end.
Qed.

(** [parse] gives the scanner enough budget: the last case of its
    definition never applies. *)
Lemma parse_never_exhausts (data : string) :
  value (budget data) 0 data <> PFuel.
Proof.
  apply (proj1 (scanners_have_budget (budget data))). unfold budget. lia.
Qed.

End JSONFacts.

(* ================================================================== *)
(** * Region resolution *)

Lemma append_empty_r (s : string) : (s ++ "")%string = s.
Proof. induction s as [|a s IH]; simpl; [reflexivity | now rewrite IH]. Qed.

Section RegionResolution.

Variable c : Client.

(** What [SetRegion] stores depends on the region alone, not on the client
    it is applied to. *)
Lemma SetRegion_depends_on_region_only (X : Region) (c1 c2 : Client) :
  GetRegion (SetRegion X c1) = X /\
  GetOAuthHost (SetRegion X c1) = GetOAuthHost (SetRegion X c2) /\
  GetAPIHost (SetRegion X c1) = GetAPIHost (SetRegion X c2) /\
  GetDynamicNamespace (SetRegion X c1) = GetDynamicNamespace (SetRegion X c2) /\
  GetDynamicClassicNamespace (SetRegion X c1)
    = GetDynamicClassicNamespace (SetRegion X c2) /\
  GetProfileNamespace (SetRegion X c1) = GetProfileNamespace (SetRegion X c2) /\
  GetStaticNamespace (SetRegion X c1) = GetStaticNamespace (SetRegion X c2) /\
  GetStaticClassicNamespace (SetRegion X c1)
    = GetStaticClassicNamespace (SetRegion X c2).
Proof.
  unfold SetRegion. destruct (X =? CN); repeat split; reflexivity.
Qed.

(** [SetRegion] leaves the credentials, the token and the locale alone. *)
Lemma SetRegion_frame (X : Region) :
  oauth (SetRegion X c) = oauth c /\ GetLocale (SetRegion X c) = GetLocale c.
Proof. unfold SetRegion. destruct (X =? CN); split; reflexivity. Qed.

(** The region code that [%s] prints for a value outside the table. *)
Lemma String_out_of_range (r : Region) :
  r < 0 \/ 5 < r ->
  String_ r = Panics
    (if r <? 0
     then "runtime error: index out of range [" ++ itoa r ++ "]"
     else "runtime error: index out of range [" ++ itoa r ++ "] with length 6").
Proof.
  intros H. unfold String_, index.
  destruct (r <? 0) eqn:E; [reflexivity|].
  apply Z.ltb_ge in E.
  assert (N : nth_error rr (Z.to_nat r) = None).
  { apply nth_error_None. simpl. lia. }
  rewrite N. reflexivity.
Qed.

(** C7. For each of the regions US, EU, KR and TW, whose codes are us, eu,
    kr and tw, [Region.String] returns the code and [SetRegion] yields the
    API host "https://" + code + ".api.blizzard.com", the OAuth host
    "https://" + code + ".battle.net" and the five namespaces "dynamic-",
    "dynamic-classic-", "profile-", "static-" and "static-classic-"
    followed by the code; the twenty-eight values are also written out.
    For CN it yields the China hosts and the five namespaces with the
    suffix "-zh". *)
Theorem SetRegion_resolves_hosts_and_namespaces :
  (forall (r : Region) (code : string),
      In (r, code) [(US, "us"); (EU, "eu"); (KR, "kr"); (TW, "tw")] ->
      String_ r = Returns code /\
      GetRegion (SetRegion r c) = r /\
      GetAPIHost (SetRegion r c) = "https://" ++ code ++ ".api.blizzard.com" /\
      GetOAuthHost (SetRegion r c) = "https://" ++ code ++ ".battle.net" /\
      GetDynamicNamespace (SetRegion r c) = "dynamic-" ++ code /\
      GetDynamicClassicNamespace (SetRegion r c) = "dynamic-classic-" ++ code /\
      GetProfileNamespace (SetRegion r c) = "profile-" ++ code /\
      GetStaticNamespace (SetRegion r c) = "static-" ++ code /\
      GetStaticClassicNamespace (SetRegion r c) = "static-classic-" ++ code) /\
  (GetAPIHost (SetRegion US c) = "https://us.api.blizzard.com" /\
   GetOAuthHost (SetRegion US c) = "https://us.battle.net" /\
   GetDynamicNamespace (SetRegion US c) = "dynamic-us" /\
   GetDynamicClassicNamespace (SetRegion US c) = "dynamic-classic-us" /\
   GetProfileNamespace (SetRegion US c) = "profile-us" /\
   GetStaticNamespace (SetRegion US c) = "static-us" /\
   GetStaticClassicNamespace (SetRegion US c) = "static-classic-us") /\
  (GetAPIHost (SetRegion EU c) = "https://eu.api.blizzard.com" /\
   GetOAuthHost (SetRegion EU c) = "https://eu.battle.net" /\
   GetDynamicNamespace (SetRegion EU c) = "dynamic-eu" /\
   GetDynamicClassicNamespace (SetRegion EU c) = "dynamic-classic-eu" /\
   GetProfileNamespace (SetRegion EU c) = "profile-eu" /\
   GetStaticNamespace (SetRegion EU c) = "static-eu" /\
   GetStaticClassicNamespace (SetRegion EU c) = "static-classic-eu") /\
  (GetAPIHost (SetRegion KR c) = "https://kr.api.blizzard.com" /\
   GetOAuthHost (SetRegion KR c) = "https://kr.battle.net" /\
   GetDynamicNamespace (SetRegion KR c) = "dynamic-kr" /\
   GetDynamicClassicNamespace (SetRegion KR c) = "dynamic-classic-kr" /\
   GetProfileNamespace (SetRegion KR c) = "profile-kr" /\
   GetStaticNamespace (SetRegion KR c) = "static-kr" /\
   GetStaticClassicNamespace (SetRegion KR c) = "static-classic-kr") /\
  (GetAPIHost (SetRegion TW c) = "https://tw.api.blizzard.com" /\
   GetOAuthHost (SetRegion TW c) = "https://tw.battle.net" /\
   GetDynamicNamespace (SetRegion TW c) = "dynamic-tw" /\
   GetDynamicClassicNamespace (SetRegion TW c) = "dynamic-classic-tw" /\
   GetProfileNamespace (SetRegion TW c) = "profile-tw" /\
   GetStaticNamespace (SetRegion TW c) = "static-tw" /\
   GetStaticClassicNamespace (SetRegion TW c) = "static-classic-tw") /\
  (GetRegion (SetRegion CN c) = CN /\
   GetOAuthHost (SetRegion CN c) = "https://www.battlenet.com.cn" /\
   GetAPIHost (SetRegion CN c) = "https://gateway.battlenet.com.cn" /\
   GetDynamicNamespace (SetRegion CN c) = "dynamic-zh" /\
   GetDynamicClassicNamespace (SetRegion CN c) = "dynamic-classic-zh" /\
   GetProfileNamespace (SetRegion CN c) = "profile-zh" /\
   GetStaticNamespace (SetRegion CN c) = "static-zh" /\
   GetStaticClassicNamespace (SetRegion CN c) = "static-classic-zh").
Proof.
  split.
  - intros r code Hr. simpl in Hr.
    destruct Hr as [E|[E|[E|[E|[]]]]];
      injection E as <- <-; repeat split; reflexivity.
  - repeat split; reflexivity.
Qed.

(** C8, as the code has it.  [SetRegion] has no error result.  Applied to
    the zero region it stores hosts and namespaces built from the empty
    region code.  Applied to a value outside the table (below 0 or above
    5) it stores hosts and namespaces in which the text that [fmt] prints
    for the panic of [Region.String] stands where the code would. *)
Theorem SetRegion_unrecognized_region :
  (GetRegion (SetRegion 0 c) = 0 /\
   GetAPIHost (SetRegion 0 c) = "https://.api.blizzard.com" /\
   GetOAuthHost (SetRegion 0 c) = "https://.battle.net" /\
   GetDynamicNamespace (SetRegion 0 c) = "dynamic-" /\
   GetDynamicClassicNamespace (SetRegion 0 c) = "dynamic-classic-" /\
   GetProfileNamespace (SetRegion 0 c) = "profile-" /\
   GetStaticNamespace (SetRegion 0 c) = "static-" /\
   GetStaticClassicNamespace (SetRegion 0 c) = "static-classic-") /\
  (forall r : Region,
      r < 0 \/ 5 < r ->
      exists msg : string,
        String_ r = Panics msg /\
        let printed := "%!s(PANIC=String method: " ++ msg ++ ")" in
        GetRegion (SetRegion r c) = r /\
        GetAPIHost (SetRegion r c) = "https://" ++ printed ++ ".api.blizzard.com" /\
        GetOAuthHost (SetRegion r c) = "https://" ++ printed ++ ".battle.net" /\
        GetDynamicNamespace (SetRegion r c) = "dynamic-" ++ printed /\
        GetDynamicClassicNamespace (SetRegion r c) = "dynamic-classic-" ++ printed /\
        GetProfileNamespace (SetRegion r c) = "profile-" ++ printed /\
        GetStaticNamespace (SetRegion r c) = "static-" ++ printed /\
        GetStaticClassicNamespace (SetRegion r c) = "static-classic-" ++ printed).
Proof.
  split; [repeat split; reflexivity|].
  intros r Hr. pose proof (String_out_of_range Hr) as Hs.
  set (msg := if r <? 0 then _ else _) in Hs. clearbody msg.
  exists msg. split; [exact Hs|].
  assert (Hcn : (r =? CN) = false) by (apply Z.eqb_neq; unfold CN; lia).
  unfold SetRegion. rewrite Hcn.
  unfold Sprintf; cbn -[verb_s]. unfold verb_s. rewrite Hs. cbn.
  rewrite !append_empty_r.
  repeat split; reflexivity.
Qed.

(** What [SetRegion] stores for a region other than CN: the host and
    namespace patterns with what [%s] prints for the region. *)
Lemma SetRegion_stores_the_printed_region (X : Region) (k : Client) :
  X <> CN ->
  GetOAuthHost (SetRegion X k) = "https://" ++ verb_s X ++ ".battle.net" /\
  GetAPIHost (SetRegion X k) = "https://" ++ verb_s X ++ ".api.blizzard.com" /\
  GetDynamicNamespace (SetRegion X k) = "dynamic-" ++ verb_s X /\
  GetDynamicClassicNamespace (SetRegion X k) = "dynamic-classic-" ++ verb_s X /\
  GetProfileNamespace (SetRegion X k) = "profile-" ++ verb_s X /\
  GetStaticNamespace (SetRegion X k) = "static-" ++ verb_s X /\
  GetStaticClassicNamespace (SetRegion X k) = "static-classic-" ++ verb_s X.
Proof.
  intros H. apply Z.eqb_neq in H. unfold SetRegion. rewrite H.
  unfold Sprintf. cbn -[verb_s]. rewrite !append_empty_r.
  repeat split; reflexivity.
Qed.

(** C9. After any sequence of [SetRegion] calls ending with
    [SetRegion(X)], whatever the client and the regions set before,
    [GetRegion] returns X and the seven host and namespace accessors return
    the values of region X and nothing of the earlier regions: for X among
    US, EU, KR and TW, of code us, eu, kr and tw, the hosts
    "https://" + code + ".battle.net" and
    "https://" + code + ".api.blizzard.com" and the namespaces "dynamic-",
    "dynamic-classic-", "profile-", "static-" and "static-classic-"
    followed by the code; for CN the China hosts and the namespaces in
    "-zh"; for any other value the same patterns as for US with what [%s]
    prints for X in the place of the code. *)
Theorem accessors_follow_the_last_SetRegion
    (rs : list Region) (X : Region) :
  GetRegion (SetRegion X (fold_left (fun k r => SetRegion r k) rs c)) = X /\
  (forall code : string,
      In (X, code) [(US, "us"); (EU, "eu"); (KR, "kr"); (TW, "tw")] ->
      let c' := SetRegion X (fold_left (fun k r => SetRegion r k) rs c) in
      GetOAuthHost c' = "https://" ++ code ++ ".battle.net" /\
      GetAPIHost c' = "https://" ++ code ++ ".api.blizzard.com" /\
      GetDynamicNamespace c' = "dynamic-" ++ code /\
      GetDynamicClassicNamespace c' = "dynamic-classic-" ++ code /\
      GetProfileNamespace c' = "profile-" ++ code /\
      GetStaticNamespace c' = "static-" ++ code /\
      GetStaticClassicNamespace c' = "static-classic-" ++ code) /\
  (X = CN ->
   let c' := SetRegion X (fold_left (fun k r => SetRegion r k) rs c) in
   GetOAuthHost c' = "https://www.battlenet.com.cn" /\
   GetAPIHost c' = "https://gateway.battlenet.com.cn" /\
   GetDynamicNamespace c' = "dynamic-zh" /\
   GetDynamicClassicNamespace c' = "dynamic-classic-zh" /\
   GetProfileNamespace c' = "profile-zh" /\
   GetStaticNamespace c' = "static-zh" /\
   GetStaticClassicNamespace c' = "static-classic-zh") /\
  (X <> CN ->
   let c' := SetRegion X (fold_left (fun k r => SetRegion r k) rs c) in
   GetOAuthHost c' = "https://" ++ verb_s X ++ ".battle.net" /\
   GetAPIHost c' = "https://" ++ verb_s X ++ ".api.blizzard.com" /\
   GetDynamicNamespace c' = "dynamic-" ++ verb_s X /\
   GetDynamicClassicNamespace c' = "dynamic-classic-" ++ verb_s X /\
   GetProfileNamespace c' = "profile-" ++ verb_s X /\
   GetStaticNamespace c' = "static-" ++ verb_s X /\
   GetStaticClassicNamespace c' = "static-classic-" ++ verb_s X).
Proof.
  generalize (fold_left (fun k r => SetRegion r k) rs c). intros k.
  split; [unfold SetRegion; destruct (X =? CN); reflexivity|].
  split; [|split].
  - intros code H. simpl in H.
    destruct H as [E|[E|[E|[E|[]]]]];
      injection E as <- <-; repeat split; reflexivity.
  - intros ->. repeat split; reflexivity.
  - intros H. exact (SetRegion_stores_the_printed_region k H).
Qed.

End RegionResolution.

(** C10. [Region.String] returns a string exactly for the values from 0 to
    5, the entry of its six-element table at that index; for every value
    above 5 and every negative value the index is outside the table and the
    call panics instead of returning. *)
Theorem Region_String_defined_from_0_to_5 (r : Region) :
  List.length rr = 6%nat /\
  (0 <= r <= 5 ->
   exists s : string, String_ r = Returns s /\ nth_error rr (Z.to_nat r) = Some s) /\
  (r < 0 \/ 5 < r -> exists msg : string, String_ r = Panics msg).
Proof.
  split; [reflexivity|]. split.
  - intros H. unfold String_, index.
    destruct (r <? 0) eqn:E; [apply Z.ltb_lt in E; lia|].
    destruct (nth_error rr (Z.to_nat r)) as [s|] eqn:N; [eauto|].
    apply nth_error_None in N. simpl in N. lia.
  - intros H. rewrite (String_out_of_range H). eauto.
Qed.

(** Witness of C7 at the region EU. *)
Lemma SetRegion_resolves_hosts_and_namespaces_witness :
  In (EU, "eu") [(US, "us"); (EU, "eu"); (KR, "kr"); (TW, "tw")] /\
  String_ EU = Returns "eu" /\
  GetAPIHost (SetRegion EU (NewClient "id" "secret" US "en_US"))
    = "https://eu.api.blizzard.com" /\
  GetProfileNamespace (SetRegion EU (NewClient "id" "secret" US "en_US"))
    = "profile-eu".
Proof.
  assert (H1 : In (EU, "eu") [(US, "us"); (EU, "eu"); (KR, "kr"); (TW, "tw")])
    by (simpl; tauto).
  pose proof (proj1 (SetRegion_resolves_hosts_and_namespaces
                       (NewClient "id" "secret" US "en_US")) EU "eu" H1) as H.
  split; [exact H1|]. split; [exact (proj1 H)|].
  split; [exact (proj1 (proj2 (proj2 H)))
         | exact (proj1 (proj2 (proj2 (proj2 (proj2 (proj2 (proj2 H)))))))].
Defined.

(** Witness of C9: the regions US, CN and KR are set, then EU; and the
    regions US and EU are set, then CN; and the zero region is set last. *)
Lemma accessors_follow_the_last_SetRegion_witness :
  (In (EU, "eu") [(US, "us"); (EU, "eu"); (KR, "kr"); (TW, "tw")] /\
   GetAPIHost (SetRegion EU (SetRegion KR (SetRegion CN (SetRegion US
      (NewClient "id" "secret" TW "en_US")))))
   = "https://eu.api.blizzard.com") /\
  (CN = CN /\
   GetDynamicNamespace (SetRegion CN (SetRegion EU (SetRegion US
      (NewClient "id" "secret" TW "en_US")))) = "dynamic-zh") /\
  (0 <> CN /\
   GetOAuthHost (SetRegion 0 (SetRegion EU
      (NewClient "id" "secret" TW "en_US"))) = "https://.battle.net").
Proof.
  assert (H1 : In (EU, "eu") [(US, "us"); (EU, "eu"); (KR, "kr"); (TW, "tw")])
    by (simpl; tauto).
  assert (H2 : CN = CN) by reflexivity.
  assert (H3 : 0 <> CN) by discriminate.
  split; [|split].
  - split; [exact H1|].
    exact (proj1 (proj2 (proj1 (proj2
             (accessors_follow_the_last_SetRegion
                (NewClient "id" "secret" TW "en_US") [US; CN; KR] EU))
             "eu" H1))).
  - split; [exact H2|].
    exact (proj1 (proj2 (proj2 (proj1 (proj2 (proj2
             (accessors_follow_the_last_SetRegion
                (NewClient "id" "secret" TW "en_US") [US; EU] CN))) H2)))).
  - split; [exact H3|].
    exact (proj1 (proj2 (proj2 (proj2
             (accessors_follow_the_last_SetRegion
                (NewClient "id" "secret" TW "en_US") [EU] 0))) H3)).
Defined.

(** The claim C8 fails at the zero region: [SetRegion] completes, and the
    hosts it stores have an empty region code. *)
Lemma SetRegion_zero_region_gives_empty_code :
  String_ 0 = Returns "" /\
  GetRegion (SetRegion 0 (NewClient "id" "secret" US "en_US")) = 0 /\
  GetAPIHost (SetRegion 0 (NewClient "id" "secret" US "en_US"))
    = "https://" ++ "" ++ ".api.blizzard.com" /\
  GetOAuthHost (NewClient "id" "secret" 0 "en_US") = "https://" ++ "" ++ ".battle.net".
Proof. repeat split; reflexivity. Qed.

(** Witness of the amended C8 at the region value 7. *)
Lemma SetRegion_unrecognized_region_witness :
  (7 < 0 \/ 5 < 7) /\
  exists msg : string,
    String_ 7 = Panics msg /\
    GetAPIHost (SetRegion 7 (NewClient "id" "secret" US "en_US"))
      = "https://" ++ ("%!s(PANIC=String method: " ++ msg ++ ")")
          ++ ".api.blizzard.com".
Proof.
  assert (H : 7 < 0 \/ 5 < 7) by (right; lia).
  split; [exact H|].
  destruct (proj2 (SetRegion_unrecognized_region
                     (NewClient "id" "secret" US "en_US")) 7 H)
    as (msg & Hs & Hf).
  exists msg. split; [exact Hs | exact (proj1 (proj2 Hf))].
Defined.

(** Witness of C10 at the region values 3 and 7. *)
Lemma Region_String_defined_from_0_to_5_witness :
  (0 <= 3 <= 5 /\
   exists s : string, String_ 3 = Returns s /\ nth_error rr (Z.to_nat 3) = Some s) /\
  ((7 < 0 \/ 5 < 7) /\ exists msg : string, String_ 7 = Panics msg).
Proof.
  assert (H3 : 0 <= 3 <= 5) by lia.
  assert (H7 : 7 < 0 \/ 5 < 7) by (right; lia).
  split.
  - split; [exact H3|].
    exact (proj1 (proj2 (Region_String_defined_from_0_to_5 3)) H3).
  - split; [exact H7|].
    exact (proj2 (proj2 (Region_String_defined_from_0_to_5 7)) H7).
Defined.

(* ================================================================== *)
(** * The token lifecycle (oauth.go) *)

Lemma requests_app (t1 t2 : list Event) :
  requests (t1 ++ t2) = (requests t1 ++ requests t2)%list.
Proof.
  induction t1 as [|[cl req|data] t1 IH]; simpl; [reflexivity| |assumption].
  now rewrite IH.
Qed.

Lemma decoded_app (t1 t2 : list Event) :
  decoded (t1 ++ t2) = (decoded t1 ++ decoded t2)%list.
Proof.
  induction t1 as [|[cl req|data] t1 IH]; simpl; [reflexivity|assumption|].
  now rewrite IH.
Qed.

Lemma Sub_at_least (t u : Time) (d : Duration) :
  d <= maxDuration -> d <= t - u -> d <= Sub t u.
Proof.
  unfold Sub, minDuration, maxDuration, minInt64, maxInt64. intros Hd H.
  destruct (t - u <? - 2 ^ 63) eqn:E1; [apply Z.ltb_lt in E1; lia|].
  destruct (2 ^ 63 - 1 <? t - u) eqn:E2; lia.
Qed.

Lemma Sub_below (t u : Time) (d : Duration) :
  minDuration < d -> t - u < d -> Sub t u < d.
Proof.
  unfold Sub, minDuration, maxDuration, minInt64, maxInt64. intros Hd H.
  destruct (t - u <? - 2 ^ 63) eqn:E1; [lia|].
  destruct (2 ^ 63 - 1 <? t - u) eqn:E2; [apply Z.ltb_lt in E2; lia | lia].
Qed.

(** The errors of storing into an [AccessTokenRequest] are type errors. *)
Lemma store_member_type_errors (acc : AccessTokenRequest * option decode_error)
    (m : string * json) :
  (snd acc = None \/ exists v f, snd acc = Some (UnmarshalTypeError v f)) ->
  snd (store_member acc m) = None \/
  exists v f, snd (store_member acc m) = Some (UnmarshalTypeError v f).
Proof.
  destruct acc as [t err], m as [key j]. simpl. intros Hacc.
  assert (Hs : forall field old,
             snd (store_string field j old) = None \/
             exists v f, snd (store_string field j old) = Some (UnmarshalTypeError v f)).
  { intros field old. destruct j; simpl; eauto. }
  assert (Hi : forall field old,
             snd (store_int field j old) = None \/
             exists v f, snd (store_int field j old) = Some (UnmarshalTypeError v f)).
  { intros field old. destruct j; simpl; eauto. destruct (ParseInt literal); simpl; eauto. }
  assert (Hf : forall e,
             (e = None \/ exists v f, e = Some (UnmarshalTypeError v f)) ->
             first_error err e = None \/
             exists v f, first_error err e = Some (UnmarshalTypeError v f)).
  { intros e He. destruct Hacc as [->|(v & f & ->)]; simpl; eauto. }
  repeat match goal with
         | |- context [if ?b then _ else _] => destruct b
         end;
    try match goal with
        | |- context [store_string ?f j ?o] =>
            specialize (Hs f o); destruct (store_string f j o)
        | |- context [store_int ?f j ?o] =>
            specialize (Hi f o); destruct (store_int f j o)
        end; simpl in *; auto.
Qed.

Lemma store_members_type_errors (ms : list (string * json))
    (acc : AccessTokenRequest * option decode_error) :
  (snd acc = None \/ exists v f, snd acc = Some (UnmarshalTypeError v f)) ->
  snd (fold_left store_member ms acc) = None \/
  exists v f, snd (fold_left store_member ms acc) = Some (UnmarshalTypeError v f).
Proof.
  revert acc. induction ms as [|m ms IH]; intros acc H; simpl; [exact H|].
  apply IH, store_member_type_errors, H.
Qed.

(** [json.Unmarshal] into an [AccessTokenRequest] fails with a syntax error
    before anything is stored, or with a type error. *)
Lemma Unmarshal_token_errors (data : string) (t t' : AccessTokenRequest)
    (e : error) :
  Unmarshal data t = (t', Some e) ->
  (e = DecodeError SyntaxError /\ t' = t) \/
  exists v f, e = DecodeError (UnmarshalTypeError v f).
Proof.
  unfold Unmarshal. destruct (parse data) as [j|].
  - destruct (store j t) as [t1 e1] eqn:Es. intros H. inversion H; subst. right.
    assert (He : e1 = None \/ exists v f, e1 = Some (UnmarshalTypeError v f)).
    { change e1 with (snd (t', e1)). rewrite <- Es. simpl.
      destruct j; simpl; eauto. apply store_members_type_errors. simpl. auto. }
    destruct He as [->|(v & f & ->)]; simpl in *; [discriminate|].
    match goal with H1 : Some _ = Some e |- _ => inversion H1 end. eauto.
  - intros H. inversion H; subst. left. split; reflexivity.
Qed.

Lemma with_token_same (c : Client) :
  with_token (AccessTokenRequest_ (oauth c)) (ExpiresAt (oauth c)) c = c.
Proof. destruct c as [? ? [? ? ? ?] ? ? ? ? ? ? ? ? ?]. reflexivity. Qed.

Section TokenLifecycle.

Context {net : Network}.

Lemma Do_returns (cl : HTTPClient) (req : Request) (w : World) :
  cl <> NilClient ->
  Do cl req w = Done (reply (roundTrip (trace w) cl req)) (after_Do cl req w).
Proof. intros H. destruct cl; [contradiction| |]; reflexivity. Qed.

(** What [AccessTokenReq] does, case by case, once its request is built and
    the client has a transport. *)
Lemma AccessTokenReq_cases (c : Client) (w : World) :
  parseURL (oauthHost c ++ "/oauth/token") = None ->
  client c <> NilClient ->
  AccessTokenReq c w =
    let w1 := after_Do (client c) (token_request c) w in
    match reply (roundTrip (trace w) (client c) (token_request c)) with
    | inr err => Done (Some err, c) w1
    | inl res =>
        match ReadAll res with
        | (_, Some err) => Done (Some err, c) w1
        | (b, None) =>
            let w2 := mkWorld (now w1) (trace w1 ++ [EvUnmarshal b]) in
            match Unmarshal b (AccessTokenRequest_ (oauth c)) with
            | (tok, Some err) =>
                Done (Some err, with_token tok (ExpiresAt (oauth c)) c) w2
            | (tok, None) =>
                Done (None,
                      with_token tok (now w1 + wrap64 (Second * ExpiresIn tok)) c) w2
            end
        end
    end.
Proof.
  intros Hurl Hcl.
  unfold AccessTokenReq, NewRequest, NewRequestWithContext, oauthURL.
  rewrite Hurl. cbv zeta.
  change (Header_Set "Content-Type" "application/x-www-form-urlencoded" _)
    with (token_request c).
  unfold bind. rewrite (Do_returns _ _ Hcl).
  destruct (reply (roundTrip (trace w) (client c) (token_request c))) as [res|err];
    [|reflexivity].
  destruct (ReadAll res) as [b [err|]]; [reflexivity|].
  unfold json_Unmarshal, time_Now.
  destruct (Unmarshal b (AccessTokenRequest_ (oauth c))) as [tok [err|]];
    reflexivity.
Qed.

(** Far enough from the expiry, [updateAccessTokenIfExp] does nothing. *)
Lemma updateAccessTokenIfExp_skips (c : Client) (w : World) :
  60 <= ExpiresAt (oauth c) - now w ->
  updateAccessTokenIfExp c w = Done (None, c) w.
Proof.
  intros H. unfold updateAccessTokenIfExp, bind, time_Now.
  assert (L : 60 <= Sub (ExpiresAt (oauth c)) (now w)).
  { apply Sub_at_least; [unfold maxDuration, maxInt64; lia | exact H]. }
  apply Z.ltb_ge in L. rewrite L. reflexivity.
Qed.

(** Within 60 nanoseconds of the expiry, or after it,
    [updateAccessTokenIfExp] is [AccessTokenReq]. *)
Lemma updateAccessTokenIfExp_refreshes (c : Client) (w : World) :
  ExpiresAt (oauth c) - now w < 60 ->
  updateAccessTokenIfExp c w = AccessTokenReq c w.
Proof.
  intros H. unfold updateAccessTokenIfExp, bind, time_Now.
  assert (L : Sub (ExpiresAt (oauth c)) (now w) < 60).
  { apply Sub_below; [unfold minDuration, minInt64; lia | exact H]. }
  apply Z.ltb_lt in L. rewrite L.
  destruct (AccessTokenReq c w) as [[[e|] c'] w'|msg w']; reflexivity.
Qed.

(** X2. A refresh hands exactly one request to the transport, the token request;
    when it succeeds the stored expiry is the instant at which the answer
    had been read plus the [expires_in] seconds of the answer. *)
Lemma refresh_performs_one_request (c : Client) (w : World) :
  ExpiresAt (oauth c) - now w < 60 ->
  parseURL (oauthHost c ++ "/oauth/token") = None ->
  client c <> NilClient ->
  exists err c' w',
    updateAccessTokenIfExp c w = Done (err, c') w' /\
    requests (trace w') = (requests (trace w) ++ [token_request c])%list /\
    now w' = now w + elapsed (roundTrip (trace w) (client c) (token_request c)) /\
    (err = None ->
     ExpiresAt (oauth c')
       = now w' + wrap64 (Second * ExpiresIn (AccessTokenRequest_ (oauth c')))).
Proof.
  intros Hexp Hurl Hcl.
  rewrite updateAccessTokenIfExp_refreshes by assumption.
  rewrite AccessTokenReq_cases by assumption. cbv zeta.
  destruct (reply _) as [res|err].
  - destruct (ReadAll res) as [b [err|]].
    + do 3 eexists. split; [reflexivity|]. simpl. rewrite requests_app.
      repeat split. discriminate.
    + destruct (Unmarshal b _) as [tok [err|]];
        do 3 eexists; (split; [reflexivity|]); simpl;
        rewrite !requests_app; simpl; rewrite app_nil_r;
        repeat split; try discriminate.
  - do 3 eexists. split; [reflexivity|]. simpl. rewrite requests_app.
    repeat split. discriminate.
Qed.

(** X3. A refresh that fails with anything but a type error of the decoder
    leaves the client as it was. *)
Lemma refresh_failure_keeps_client (c c' : Client) (w w' : World) (e : error) :
  AccessTokenReq c w = Done (Some e, c') w' ->
  (forall v f, e <> DecodeError (UnmarshalTypeError v f)) ->
  c' = c.
Proof.
  intros Hrun Hnot.
  destruct (parseURL (oauthHost c ++ "/oauth/token")) as [uerr|] eqn:Hurl.
  { unfold AccessTokenReq, NewRequest, NewRequestWithContext, oauthURL in Hrun.
    rewrite Hurl in Hrun. inversion Hrun. reflexivity. }
  assert (Hcl : client c <> NilClient).
  { intros Hnil.
    unfold AccessTokenReq, NewRequest, NewRequestWithContext, oauthURL in Hrun.
    rewrite Hurl in Hrun. unfold bind, Do in Hrun. rewrite Hnil in Hrun.
    discriminate. }
  rewrite AccessTokenReq_cases in Hrun by assumption. cbv zeta in Hrun.
  destruct (reply _) as [res|err]; [|inversion Hrun; reflexivity].
  destruct (ReadAll res) as [b [err|]]; [inversion Hrun; reflexivity|].
  destruct (Unmarshal b _) as [tok [err|]] eqn:Eu; [|discriminate].
  inversion Hrun; subst.
  destruct (Unmarshal_token_errors _ _ Eu) as [[_ ->]|(v & f & ->)].
  - apply with_token_same.
  - exfalso. eapply Hnot. reflexivity.
Qed.

(** C3. Called at an instant [now] with [now < expiresAt - skew], for any
    margin [skew] of 60 nanoseconds or more (60 seconds is one),
    [updateAccessTokenIfExp] returns no error, hands nothing to the
    transport and leaves the client, its token and its expiry as they
    were. *)
Theorem fresh_token_is_not_refreshed (c : Client) (w : World) (skew : Duration) :
  60 <= skew ->
  now w < ExpiresAt (oauth c) - skew ->
  updateAccessTokenIfExp c w = Done (None, c) w.
Proof.
  intros Hskew Hfresh. apply updateAccessTokenIfExp_skips. lia.
Qed.

(** C1, where the code departs from it.  The margin of the code is 60
    nanoseconds, not 60 seconds: called when the token expires within the
    next 60 seconds ([now >= expiresAt - 60 s]) but not within the next 60
    nanoseconds, [updateAccessTokenIfExp] returns no error, hands no
    request to the transport and keeps the token. *)
Theorem refresh_margin_is_60_nanoseconds (c : Client) (w : World) :
  ExpiresAt (oauth c) - 60 * Second <= now w ->
  now w <= ExpiresAt (oauth c) - 60 ->
  updateAccessTokenIfExp c w = Done (None, c) w.
Proof.
  intros _ Hns. apply updateAccessTokenIfExp_skips. lia.
Qed.

End TokenLifecycle.

(** Witness of C3: a token expiring in an hour, a margin of 60 seconds. *)
Lemma fresh_token_is_not_refreshed_witness :
  60 <= 60 * Second /\
  now (mkWorld 2000 []) < ExpiresAt (oauth (client_with_token (2000 + 3600 * Second)))
                          - 60 * Second /\
  @updateAccessTokenIfExp (scripted [token_granted])
     (client_with_token (2000 + 3600 * Second)) (mkWorld 2000 [])
  = Done (None, client_with_token (2000 + 3600 * Second)) (mkWorld 2000 []).
Proof.
  assert (H1 : 60 <= 60 * Second) by (vm_compute; discriminate).
  assert (H2 : now (mkWorld 2000 [])
               < ExpiresAt (oauth (client_with_token (2000 + 3600 * Second)))
                 - 60 * Second) by (vm_compute; reflexivity).
  split; [exact H1|]. split; [exact H2|].
  exact (@fresh_token_is_not_refreshed (scripted [token_granted])
           (client_with_token (2000 + 3600 * Second)) (mkWorld 2000 [])
           (60 * Second) H1 H2).
Defined.

(** Witness of the departure from C1: a token expiring in 30 seconds is not
    refreshed, though the token endpoint would grant a new one. *)
Lemma refresh_margin_is_60_nanoseconds_witness :
  ExpiresAt (oauth (client_with_token (2000 + 30 * Second))) - 60 * Second
    <= now (mkWorld 2000 []) /\
  now (mkWorld 2000 [])
    <= ExpiresAt (oauth (client_with_token (2000 + 30 * Second))) - 60 /\
  @updateAccessTokenIfExp (scripted [token_granted])
     (client_with_token (2000 + 30 * Second)) (mkWorld 2000 [])
  = Done (None, client_with_token (2000 + 30 * Second)) (mkWorld 2000 []).
Proof.
  assert (H1 : ExpiresAt (oauth (client_with_token (2000 + 30 * Second)))
               - 60 * Second <= now (mkWorld 2000 []))
    by (vm_compute; discriminate).
  assert (H2 : now (mkWorld 2000 [])
               <= ExpiresAt (oauth (client_with_token (2000 + 30 * Second))) - 60)
    by (vm_compute; discriminate).
  split; [exact H1|]. split; [exact H2|].
  exact (@refresh_margin_is_60_nanoseconds (scripted [token_granted])
           (client_with_token (2000 + 30 * Second)) (mkWorld 2000 []) H1 H2).
Defined.

(** The refresh the code does perform, run on an expired token: one request,
    and the expiry is counted from the instant the answer had been read. *)
Example refresh_of_an_expired_token :
  match @updateAccessTokenIfExp (scripted [token_granted])
          (client_with_token 1000) (mkWorld 2000 []) with
  | Done (err, c') w' =>
      err = None /\
      requests (trace w') = [token_request (client_with_token 1000)] /\
      AccessToken (AccessTokenRequest_ (oauth c')) = "NEW" /\
      ExpiresAt (oauth c') = (2000 + 250000000) + 3600 * Second
  | Panic _ _ => False
  end.
Proof. vm_compute. repeat split; reflexivity. Qed.

(** C2, where the code departs from it.  Run on an expired token:
    - when the token endpoint answers 401 with an error document, the
      refresh reports no error and moves the stored expiry (to the instant
      of the answer plus the old [expires_in]), the old token staying in
      place;
    - when it answers with a payload whose [expires_in] is of the wrong
      type, the refresh reports the decoding error but has already
      overwritten the stored access token, the old expiry staying in
      place. *)
Theorem failed_refresh_changes_the_stored_token :
  match @updateAccessTokenIfExp (scripted [token_refused])
          (client_with_token 1000) (mkWorld 2000 []) with
  | Done (err, c') w' =>
      err = None /\
      AccessTokenRequest_ (oauth c')
        = AccessTokenRequest_ (oauth (client_with_token 1000)) /\
      ExpiresAt (oauth (client_with_token 1000)) = 1000 /\
      ExpiresAt (oauth c') = (2000 + 250000000) + 86399 * Second
  | Panic _ _ => False
  end /\
  match @updateAccessTokenIfExp (scripted [token_ill_typed])
          (client_with_token 1000) (mkWorld 2000 []) with
  | Done (err, c') w' =>
      err = Some (DecodeError (UnmarshalTypeError "string" "expires_in")) /\
      AccessToken (AccessTokenRequest_ (oauth (client_with_token 1000))) = "OLD" /\
      AccessToken (AccessTokenRequest_ (oauth c')) = "NEW" /\
      ExpiresAt (oauth c') = 1000
  | Panic _ _ => False
  end.
Proof. split; vm_compute; repeat split; reflexivity. Qed.

(* ================================================================== *)
(** * Request execution (blizzard.go) *)

Section RequestExecution.

Context {net : Network} {D : Type} {target : JSONTarget D}.

(** The three templates differ in the request they build and in the client
    they call; the rest is [finish]. *)
Lemma execute_unfold (v : Variant) (c : Client) (ctx : Context)
    (pathAndQuery namespace : string) (dat : D) :
  execute v c ctx pathAndQuery namespace dat =
    match request_of v c ctx pathAndQuery namespace with
    | inr err => ret (dat, "", Some err)
    | inl req => res <- Do (client_of v c) req ;; finish dat res
    end.
Proof.
  unfold execute, request_of, getStructData, getStructDataNoLocale,
    getStructDataOAuth.
  destruct v; destruct (NewRequestWithContext _ _ _ _); reflexivity.
Qed.

(** [json.Unmarshal] reports decoding errors only. *)
Lemma Unmarshal_error_is_decode_error (data : string) (dat dat' : D) (e : error) :
  Unmarshal data dat = (dat', Some e) -> exists de, e = DecodeError de.
Proof.
  unfold Unmarshal. destruct (parse data) as [j|].
  - destruct (store j dat) as [d1 [e1|]]; simpl; intros H; inversion H; eauto.
  - intros H; inversion H; eauto.
Qed.

(** What [execute] does, case by case, once its request is built and the
    client has a transport. *)
Lemma execute_cases (v : Variant) (c : Client) (ctx : Context)
    (pathAndQuery namespace : string) (dat : D) (w : World) (req : Request) :
  request_of v c ctx pathAndQuery namespace = inl req ->
  client_of v c <> NilClient ->
  execute v c ctx pathAndQuery namespace dat w =
    let w1 := after_Do (client_of v c) req w in
    match reply (roundTrip (trace w) (client_of v c) req) with
    | inr err => Done (dat, "", Some err) w1
    | inl res =>
        match ReadAll res with
        | (_, Some err) => Done (dat, "", Some err) w1
        | (body, None) =>
            if StatusCode res =? StatusOK then
              Done (fst (Unmarshal body dat), body, snd (Unmarshal body dat))
                (mkWorld (now w1) (trace w1 ++ [EvUnmarshal body]))
            else Done (dat, body, Some (StatusError (Status res))) w1
        end
    end.
Proof.
  intros Hreq Hcl. rewrite execute_unfold, Hreq. unfold bind.
  rewrite (Do_returns _ _ Hcl). cbv zeta. unfold finish.
  destruct (reply _) as [res|err]; [|reflexivity].
  destruct (ReadAll res) as [body [err|]]; [reflexivity|].
  destruct (StatusCode res =? StatusOK); [|reflexivity].
  unfold bind, json_Unmarshal.
  destruct (Unmarshal body dat) as [dat' [err|]]; reflexivity.
Qed.

(** C4, as the code has it.  Whenever the body of the response was read to
    its end, whatever the status and whether or not the decoding succeeds,
    [execute] (each of the three templates) returns the body read together
    with the decoded value or the error.  When the request cannot be built,
    when the transport fails and when the reading of the body fails, it
    returns the error and no bytes, whatever bytes had been read. *)
Theorem execute_returns_the_body_once_read (v : Variant) (c : Client)
    (ctx : Context) (pathAndQuery namespace : string) (dat : D) (w : World) :
  client_of v c <> NilClient ->
  exists (dat' : D) (body : string) (err : option error) (w' : World),
    execute v c ctx pathAndQuery namespace dat w = Done (dat', body, err) w' /\
    match request_of v c ctx pathAndQuery namespace with
    | inr e => body = "" /\ err = Some e
    | inl req =>
        match reply (roundTrip (trace w) (client_of v c) req) with
        | inr e => body = "" /\ err = Some e
        | inl res =>
            match ReadAll res with
            | (_, Some e) => body = "" /\ err = Some e
            | (read, None) => body = read
            end
        end
    end.
Proof.
  intros Hcl.
  destruct (request_of v c ctx pathAndQuery namespace) as [req|e] eqn:Hreq.
  - rewrite execute_cases with (req := req) by assumption. cbv zeta.
    destruct (reply _) as [res|e]; [|do 4 eexists; split; [reflexivity|]; auto].
    destruct (ReadAll res) as [body [e|]];
      [do 4 eexists; split; [reflexivity|]; auto|].
    destruct (StatusCode res =? StatusOK);
      do 4 eexists; split; reflexivity.
  - rewrite execute_unfold, Hreq. do 4 eexists. split; [reflexivity|]. auto.
Qed.

(** C5. When the response has a status other than 200 and its body was
    read, [execute] (each of the three templates) returns the destination
    untouched, the body, and an error made of the status text; nothing is
    handed to [json.Unmarshal].  And whenever a run of [execute] does hand
    something to [json.Unmarshal], the response had status 200 and it is
    its body that was handed over. *)
Theorem execute_decodes_only_on_200 (v : Variant) (c : Client) (ctx : Context)
    (pathAndQuery namespace : string) (dat : D) (w : World) :
  (forall (req : Request) (res : Response) (body : string),
      request_of v c ctx pathAndQuery namespace = inl req ->
      client_of v c <> NilClient ->
      reply (roundTrip (trace w) (client_of v c) req) = inl res ->
      ReadAll res = (body, None) ->
      StatusCode res <> StatusOK ->
      execute v c ctx pathAndQuery namespace dat w
        = Done (dat, body, Some (StatusError (Status res)))
            (after_Do (client_of v c) req w) /\
      decoded (trace (after_Do (client_of v c) req w)) = decoded (trace w)) /\
  (forall (r : D * string * option error) (w' : World),
      execute v c ctx pathAndQuery namespace dat w = Done r w' ->
      decoded (trace w') <> decoded (trace w) ->
      exists (req : Request) (res : Response),
        request_of v c ctx pathAndQuery namespace = inl req /\
        reply (roundTrip (trace w) (client_of v c) req) = inl res /\
        StatusCode res = StatusOK /\
        snd (ReadAll res) = None /\
        decoded (trace w') = (decoded (trace w) ++ [fst (ReadAll res)])%list).
Proof.
  split.
  - intros req res body Hreq Hcl Hres Hread Hstatus.
    rewrite execute_cases with (req := req) by assumption. cbv zeta.
    rewrite Hres, Hread.
    apply Z.eqb_neq in Hstatus. rewrite Hstatus.
    split; [reflexivity|].
    simpl. rewrite decoded_app. simpl. apply app_nil_r.
  - intros r w' Hrun Hdec.
    destruct (request_of v c ctx pathAndQuery namespace) as [req|e] eqn:Hreq.
    + destruct (client_of v c) eqn:Hcl.
      { rewrite execute_unfold, Hreq in Hrun. unfold bind, Do in Hrun.
        rewrite Hcl in Hrun. discriminate. }
      all: rewrite execute_cases with (req := req) in Hrun
             by (assumption || (rewrite Hcl; discriminate));
           cbv zeta in Hrun; rewrite Hcl in Hrun;
           exists req;
           destruct (reply _) as [res|e] eqn:Hres;
           [ exists res; destruct (ReadAll res) as [body [e|]] eqn:Hread;
             [ inversion Hrun; subst; exfalso; apply Hdec; simpl;
               rewrite decoded_app; simpl; apply app_nil_r
             | destruct (StatusCode res =? StatusOK) eqn:Hst;
               [ apply Z.eqb_eq in Hst; inversion Hrun; subst; simpl;
                 rewrite !decoded_app; simpl; rewrite app_nil_r;
                 repeat split; assumption
               | inversion Hrun; subst; exfalso; apply Hdec; simpl;
                 rewrite decoded_app; simpl; apply app_nil_r ] ]
           | inversion Hrun; subst; exfalso; apply Hdec; simpl;
             rewrite decoded_app; simpl; apply app_nil_r ].
    + rewrite execute_unfold, Hreq in Hrun. inversion Hrun; subst.
      exfalso. apply Hdec. reflexivity.
Qed.

(** C6. When the response has status 200, its body was read and
    [json.Unmarshal] rejects the body for the destination, [execute] (each
    of the three templates) returns the error of the decoder, which is a
    decoding error and not a status error, together with the very bytes of
    the body. *)
Theorem execute_reports_decode_failure_with_the_body (v : Variant) (c : Client)
    (ctx : Context) (pathAndQuery namespace : string) (dat dat' : D) (w : World)
    (req : Request) (res : Response) (body : string) (e : error) :
  request_of v c ctx pathAndQuery namespace = inl req ->
  client_of v c <> NilClient ->
  reply (roundTrip (trace w) (client_of v c) req) = inl res ->
  ReadAll res = (body, None) ->
  StatusCode res = StatusOK ->
  Unmarshal body dat = (dat', Some e) ->
  execute v c ctx pathAndQuery namespace dat w
    = Done (dat', body, Some e)
        (mkWorld (now (after_Do (client_of v c) req w))
           (trace (after_Do (client_of v c) req w) ++ [EvUnmarshal body])) /\
  (exists de : decode_error, e = DecodeError de) /\
  (forall status : string, e <> StatusError status).
Proof.
  intros Hreq Hcl Hres Hread Hstatus Hdec.
  rewrite execute_cases with (req := req) by assumption. cbv zeta.
  rewrite Hres, Hread. apply Z.eqb_eq in Hstatus. rewrite Hstatus, Hdec.
  split; [reflexivity|].
  destruct (Unmarshal_error_is_decode_error _ _ Hdec) as (de & ->).
  split; [eauto | discriminate].
Qed.

End RequestExecution.

(** The claim C4 fails where the reading of the body fails: eighteen bytes
    had been read, and [getStructData] returns none of them. *)
Lemma execute_drops_the_bytes_read_before_a_read_failure :
  ReadAll res_truncated
    = (js "{'access_token':'N", Some (ReadError "unexpected EOF")) /\
  match @getStructData (scripted [respond res_truncated]) _ _
          (client_with_token 1000) (context 1) "/data/sc2/ladder/1" ""
          empty_destination (mkWorld 2000 []) with
  | Done (_, body, err) _ =>
      body = "" /\ body <> fst (ReadAll res_truncated) /\
      err = Some (ReadError "unexpected EOF")
  | Panic _ _ => False
  end.
Proof.
  split; [reflexivity|]. vm_compute.
  split; [reflexivity|]. split; [discriminate | reflexivity].
Qed.

(** [TokenValidation], for comparison, returns the bytes read before the
    failure. *)
Example TokenValidation_returns_the_bytes_read :
  match @TokenValidation (scripted [respond res_truncated]) AccessTokenRequest _
          (mkAccessTokenRequest "" "" 0 "")
          (client_with_token (2000 + 3600 * Second)) (mkWorld 2000 []) with
  | Done (_, b, err, _) _ =>
      b = js "{'access_token':'N" /\ err = Some (ReadError "unexpected EOF")
  | Panic _ _ => False
  end.
Proof. vm_compute. split; reflexivity. Qed.

(** A response 200 with a well-formed body: the decoded value and the
    body. *)
Example execute_success :
  @execute (scripted [token_granted]) _ _ WithLocale
     (client_with_token 1000) (context 1) "/data/sc2/ladder/1" ""
     empty_destination (mkWorld 2000 [])
  = Done (pointer (mkAccessTokenRequest "NEW" "bearer" 3600 ""),
          js "{'access_token':'NEW','token_type':'bearer','expires_in':3600}",
          None)
      (mkWorld 250002000
         [EvDo (client (client_with_token 1000)) ladder_request;
          EvUnmarshal
            (js "{'access_token':'NEW','token_type':'bearer','expires_in':3600}")]).
Proof. vm_compute. reflexivity. Qed.

(** Witness of the amended C4: a 404 response, whose body is returned. *)
Lemma execute_returns_the_body_once_read_witness :
  client_of WithLocale (client_with_token 1000) <> NilClient /\
  exists dat' body err w',
    @execute (scripted [respond res_not_found]) _ _ WithLocale
       (client_with_token 1000) (context 1) "/data/sc2/ladder/1" ""
       empty_destination (mkWorld 2000 []) = Done (dat', body, err) w' /\
    body = js "{'code':404,'type':'BLZWEBAPI00000404','detail':'Not Found'}".
Proof.
  assert (H : client_of WithLocale (client_with_token 1000) <> NilClient)
    by discriminate.
  split; [exact H|].
  destruct (@execute_returns_the_body_once_read (scripted [respond res_not_found])
              _ _ WithLocale (client_with_token 1000) (context 1)
              "/data/sc2/ladder/1" "" empty_destination (mkWorld 2000 []) H)
    as (dat' & body & err & w' & Hrun & Hbody).
  exists dat', body, err, w'. split; [exact Hrun | exact Hbody].
Defined.

(** Witness of C5: a 404 response. *)
Lemma execute_decodes_only_on_200_witness :
  (@request_of (scripted [respond res_not_found]) WithLocale
     (client_with_token 1000) (context 1) "/data/sc2/ladder/1" ""
   = inl ladder_request /\
   client_of WithLocale (client_with_token 1000) <> NilClient /\
   reply (@roundTrip (scripted [respond res_not_found]) []
            (client_of WithLocale (client_with_token 1000)) ladder_request)
   = inl res_not_found /\
   ReadAll res_not_found
   = (js "{'code':404,'type':'BLZWEBAPI00000404','detail':'Not Found'}", None) /\
   StatusCode res_not_found <> StatusOK) /\
  @execute (scripted [respond res_not_found]) _ _ WithLocale
     (client_with_token 1000) (context 1) "/data/sc2/ladder/1" ""
     empty_destination (mkWorld 2000 [])
  = Done (empty_destination,
          js "{'code':404,'type':'BLZWEBAPI00000404','detail':'Not Found'}",
          Some (StatusError "404 Not Found"))
      (mkWorld 250002000 [EvDo (client (client_with_token 1000)) ladder_request]).
Proof.
  assert (H1 : @request_of (scripted [respond res_not_found]) WithLocale
                 (client_with_token 1000) (context 1) "/data/sc2/ladder/1" ""
               = inl ladder_request) by reflexivity.
  assert (H2 : client_of WithLocale (client_with_token 1000) <> NilClient)
    by discriminate.
  assert (H3 : reply (@roundTrip (scripted [respond res_not_found]) []
                        (client_of WithLocale (client_with_token 1000))
                        ladder_request) = inl res_not_found) by reflexivity.
  assert (H4 : ReadAll res_not_found
               = (js "{'code':404,'type':'BLZWEBAPI00000404','detail':'Not Found'}",
                  None)) by reflexivity.
  assert (H5 : StatusCode res_not_found <> StatusOK) by discriminate.
  split; [repeat split; assumption|].
  exact (proj1 (proj1 (@execute_decodes_only_on_200
                         (scripted [respond res_not_found]) _ _ WithLocale
                         (client_with_token 1000) (context 1)
                         "/data/sc2/ladder/1" "" empty_destination
                         (mkWorld 2000 []))
                  ladder_request res_not_found _ H1 H2 H3 H4 H5)).
Defined.

(** Witness of C6: a 200 response whose body stops in the middle of an
    object. *)
Lemma execute_reports_decode_failure_with_the_body_witness :
  (@request_of (scripted [respond res_malformed]) WithLocale
     (client_with_token 1000) (context 1) "/data/sc2/ladder/1" ""
   = inl ladder_request /\
   client_of WithLocale (client_with_token 1000) <> NilClient /\
   reply (@roundTrip (scripted [respond res_malformed]) []
            (client_of WithLocale (client_with_token 1000)) ladder_request)
   = inl res_malformed /\
   ReadAll res_malformed = (js "{'access_token':", None) /\
   StatusCode res_malformed = StatusOK /\
   Unmarshal (js "{'access_token':") empty_destination
   = (empty_destination, Some (DecodeError SyntaxError))) /\
  @execute (scripted [respond res_malformed]) _ _ WithLocale
     (client_with_token 1000) (context 1) "/data/sc2/ladder/1" ""
     empty_destination (mkWorld 2000 [])
  = Done (empty_destination, js "{'access_token':",
          Some (DecodeError SyntaxError))
      (mkWorld 250002000
         [EvDo (client (client_with_token 1000)) ladder_request;
          EvUnmarshal (js "{'access_token':")]).
Proof.
  assert (H1 : @request_of (scripted [respond res_malformed]) WithLocale
                 (client_with_token 1000) (context 1) "/data/sc2/ladder/1" ""
               = inl ladder_request) by reflexivity.
  assert (H2 : client_of WithLocale (client_with_token 1000) <> NilClient)
    by discriminate.
  assert (H3 : reply (@roundTrip (scripted [respond res_malformed]) []
                        (client_of WithLocale (client_with_token 1000))
                        ladder_request) = inl res_malformed) by reflexivity.
  assert (H4 : ReadAll res_malformed = (js "{'access_token':", None))
    by reflexivity.
  assert (H5 : StatusCode res_malformed = StatusOK) by reflexivity.
  assert (H6 : Unmarshal (js "{'access_token':") empty_destination
               = (empty_destination, Some (DecodeError SyntaxError)))
    by reflexivity.
  split; [repeat split; assumption|].
  exact (proj1 (@execute_reports_decode_failure_with_the_body
                  (scripted [respond res_malformed]) _ _ WithLocale
                  (client_with_token 1000) (context 1) "/data/sc2/ladder/1" ""
                  empty_destination empty_destination (mkWorld 2000 [])
                  ladder_request res_malformed _ _ H1 H2 H3 H4 H5 H6)).
Defined.

(* ================================================================== *)
(** * Further properties: the client and its token *)

Lemma NewClient_oauth (clientID clientSecret : string) (region : Region)
    (locale : Locale) :
  oauth (NewClient clientID clientSecret region locale)
  = mkOAuth clientID clientSecret (mkAccessTokenRequest "" "" 0 "") 0.
Proof. unfold NewClient, SetRegion. destruct (region =? CN); reflexivity. Qed.

Lemma NewClient_client (clientID clientSecret : string) (region : Region)
    (locale : Locale) :
  client (NewClient clientID clientSecret region locale)
  = CredentialsClient (cfg (NewClient clientID clientSecret region locale)).
Proof. unfold NewClient, SetRegion. destruct (region =? CN); reflexivity. Qed.

Section TokenLifecycleMore.

Context {net : Network}.

Lemma AccessTokenReq_result (c c' : Client) (w w' : World) (e : option error) :
  AccessTokenReq c w = Done (e, c') w' ->
  exists tok exp, c' = with_token tok exp c.
Proof.
  intros Hrun.
  destruct (parseURL (oauthHost c ++ "/oauth/token")) as [uerr|] eqn:Hurl.
  { unfold AccessTokenReq, NewRequest, NewRequestWithContext, oauthURL in Hrun.
    rewrite Hurl in Hrun. inversion Hrun; subst.
    do 2 eexists. symmetry. apply with_token_same. }
  assert (Hcl : client c <> NilClient).
  { intros Hnil.
    unfold AccessTokenReq, NewRequest, NewRequestWithContext, oauthURL in Hrun.
    rewrite Hurl in Hrun. unfold bind, Do in Hrun. rewrite Hnil in Hrun.
    discriminate. }
  rewrite AccessTokenReq_cases in Hrun by assumption. cbv zeta in Hrun.
  destruct (reply _) as [res|err].
  - destruct (ReadAll res) as [b [err|]].
    + inversion Hrun; subst. do 2 eexists. symmetry. apply with_token_same.
    + destruct (Unmarshal b _) as [tok [err|]];
        inversion Hrun; subst; eauto.
  - inversion Hrun; subst. do 2 eexists. symmetry. apply with_token_same.
Qed.

(** X1. A call of [updateAccessTokenIfExp] that returns, whether it
    refreshed or not and whether the refresh failed or not, changes nothing
    of the client but the stored token and its expiry: the HTTP client, the
    credentials, the region, the locale, the hosts and the namespaces are
    as before. *)
Theorem refresh_changes_only_the_token (c c' : Client) (w w' : World)
    (e : option error) :
  updateAccessTokenIfExp c w = Done (e, c') w' ->
  client c' = client c /\ cfg c' = cfg c /\
  ClientID (oauth c') = ClientID (oauth c) /\
  ClientSecret (oauth c') = ClientSecret (oauth c) /\
  GetRegion c' = GetRegion c /\ GetLocale c' = GetLocale c /\
  GetOAuthHost c' = GetOAuthHost c /\ GetAPIHost c' = GetAPIHost c /\
  GetDynamicNamespace c' = GetDynamicNamespace c /\
  GetDynamicClassicNamespace c' = GetDynamicClassicNamespace c /\
  GetProfileNamespace c' = GetProfileNamespace c /\
  GetStaticNamespace c' = GetStaticNamespace c /\
  GetStaticClassicNamespace c' = GetStaticClassicNamespace c.
Proof.
  intros Hrun.
  assert (H : exists tok exp, c' = with_token tok exp c).
  { destruct (Z.lt_ge_cases (ExpiresAt (oauth c) - now w) 60) as [Hlt|Hge].
    - rewrite updateAccessTokenIfExp_refreshes in Hrun by assumption.
      eapply AccessTokenReq_result; eassumption.
    - rewrite updateAccessTokenIfExp_skips in Hrun by assumption.
      inversion Hrun; subst. do 2 eexists. symmetry. apply with_token_same. }
  destruct H as (tok & exp & ->). repeat split; reflexivity.
Qed.

(** X4. The first [updateAccessTokenIfExp] of a client made by [NewClient],
    at any instant of our era, asks for a token: when the token URL parses,
    it hands exactly one request to the transport, a POST of
    [grant_type=client_credentials] to the OAuth host of the region followed
    by [/oauth/token], with the client identifier and secret given to
    [NewClient] as basic authentication. *)
Theorem new_client_first_asks_for_a_token (clientID clientSecret : string)
    (region : Region) (locale : Locale) (w : World) :
  0 <= now w ->
  parseURL (GetOAuthHost (NewClient clientID clientSecret region locale)
              ++ "/oauth/token") = None ->
  exists err c' w' req,
    updateAccessTokenIfExp (NewClient clientID clientSecret region locale) w
      = Done (err, c') w' /\
    requests (trace w') = (requests (trace w) ++ [req])%list /\
    Method req = "POST" /\
    RawURL req = GetOAuthHost (NewClient clientID clientSecret region locale)
                   ++ "/oauth/token" /\
    BasicAuth req = Some (clientID, clientSecret) /\
    Header_Get "Content-Type" req = Some "application/x-www-form-urlencoded" /\
    Body req = "grant_type=client_credentials".
Proof.
  intros Hnow Hurl.
  set (c := NewClient clientID clientSecret region locale) in *.
  assert (Ho : oauth c = mkOAuth clientID clientSecret
                           (mkAccessTokenRequest "" "" 0 "") 0)
    by apply NewClient_oauth.
  assert (Hcl : client c <> NilClient).
  { unfold c. rewrite NewClient_client. discriminate. }
  clearbody c.
  assert (Hexp : ExpiresAt (oauth c) - now w < 60) by (rewrite Ho; simpl; lia).
  rewrite updateAccessTokenIfExp_refreshes by assumption.
  rewrite AccessTokenReq_cases by assumption. cbv zeta.
  assert (Hreq : token_request c
                 = mkRequest (context 0) "POST" (GetOAuthHost c ++ "/oauth/token")
                     [] [("Content-Type", "application/x-www-form-urlencoded")]
                     (Some (clientID, clientSecret))
                     "grant_type=client_credentials").
  { unfold token_request. rewrite Ho. reflexivity. }
  destruct (reply _) as [res|err].
  - destruct (ReadAll res) as [b [err|]].
    + do 3 eexists. exists (token_request c). split; [reflexivity|].
      simpl trace. rewrite requests_app. rewrite Hreq. repeat split.
    + destruct (Unmarshal b _) as [tok [err|]];
        do 3 eexists; exists (token_request c); (split; [reflexivity|]);
        simpl trace; rewrite !requests_app; cbn [requests app];
        rewrite app_nil_r; rewrite Hreq; repeat split.
  - do 3 eexists. exists (token_request c). split; [reflexivity|].
    simpl trace. rewrite requests_app. rewrite Hreq. repeat split.
Qed.

(** X6. A switch of region keeps the stored token and its expiry: while
    the token is not within 60 nanoseconds of its expiry, the first
    [updateAccessTokenIfExp] after [SetRegion] asks for no new token, and
    the token obtained for the region before stays the one in use. *)
Theorem region_switch_keeps_the_token (c : Client) (region : Region) (w : World) :
  60 <= ExpiresAt (oauth c) - now w ->
  updateAccessTokenIfExp (SetRegion region c) w = Done (None, SetRegion region c) w /\
  AccessTokenRequest_ (oauth (SetRegion region c)) = AccessTokenRequest_ (oauth c) /\
  ExpiresAt (oauth (SetRegion region c)) = ExpiresAt (oauth c).
Proof.
  intros H.
  assert (Ho : oauth (SetRegion region c) = oauth c) by apply SetRegion_frame.
  split; [|rewrite Ho; split; reflexivity].
  apply updateAccessTokenIfExp_skips. rewrite Ho. exact H.
Qed.

End TokenLifecycleMore.

(** What every sequence of setter calls keeps true of a client. *)
Lemma call_keeps_configuration (clientID clientSecret : string) (c : Client)
    (s : setter) :
  (ClientID (oauth c) = clientID /\ ClientSecret (oauth c) = clientSecret /\
   cfg_ClientID (cfg c) = clientID /\ cfg_ClientSecret (cfg c) = clientSecret /\
   cfg_TokenURL (cfg c) = GetOAuthHost c ++ "/oauth/token" /\
   client c = CredentialsClient (cfg c)) ->
  (ClientID (oauth (call c s)) = clientID /\
   ClientSecret (oauth (call c s)) = clientSecret /\
   cfg_ClientID (cfg (call c s)) = clientID /\
   cfg_ClientSecret (cfg (call c s)) = clientSecret /\
   cfg_TokenURL (cfg (call c s)) = GetOAuthHost (call c s) ++ "/oauth/token" /\
   client (call c s) = CredentialsClient (cfg (call c s))).
Proof.
  intros (H1 & H2 & H3 & H4 & H5 & H6).
  destruct s as [region|locale]; simpl.
  - unfold SetRegion. destruct (region =? CN); simpl; repeat split; assumption.
  - unfold SetLocale. simpl. repeat split; assumption.
Qed.

(** X5. After [NewClient] and any sequence of [SetRegion] and [SetLocale]
    calls, the credentials held by the client and by its OAuth
    configuration are those given to [NewClient], the token URL of the
    configuration is the current OAuth host followed by [/oauth/token], and
    the HTTP client is the one made from that configuration. *)
Theorem configuration_follows_the_setters (clientID clientSecret : string)
    (region : Region) (locale : Locale) (calls : list setter) :
  let c := fold_left call calls (NewClient clientID clientSecret region locale) in
  ClientID (oauth c) = clientID /\ ClientSecret (oauth c) = clientSecret /\
  cfg_ClientID (cfg c) = clientID /\ cfg_ClientSecret (cfg c) = clientSecret /\
  cfg_TokenURL (cfg c) = GetOAuthHost c ++ "/oauth/token" /\
  client c = CredentialsClient (cfg c).
Proof.
  cbv zeta.
  assert (H0 : let c := NewClient clientID clientSecret region locale in
               ClientID (oauth c) = clientID /\ ClientSecret (oauth c) = clientSecret /\
               cfg_ClientID (cfg c) = clientID /\
               cfg_ClientSecret (cfg c) = clientSecret /\
               cfg_TokenURL (cfg c) = GetOAuthHost c ++ "/oauth/token" /\
               client c = CredentialsClient (cfg c)).
  { unfold NewClient, SetRegion. destruct (region =? CN); repeat split. }
  cbv zeta in H0.
  generalize dependent (NewClient clientID clientSecret region locale).
  induction calls as [|s calls IH]; intros c H0; simpl; [exact H0|].
  apply IH. apply call_keeps_configuration. exact H0.
Qed.

(* ================================================================== *)
(** * Further properties: the request templates *)

Section RequestExecutionMore.

Context {net : Network} {D : Type} {target : JSONTarget D}.

(** The request of a template, when the context is not nil and the URL
    parses. *)
Lemma request_of_built (v : Variant) (c : Client) (id : nat)
    (pathAndQuery namespace : string) :
  parseURL (apiHost c ++ pathAndQuery) = None ->
  exists req,
    request_of v c (context id) pathAndQuery namespace = inl req /\
    Ctx req = context id /\
    Method req = "GET" /\
    RawURL req = apiHost c ++ pathAndQuery /\
    Body req = "" /\
    BasicAuth req = None /\
    Header_Get "Accept" req = Some "application/json" /\
    Header_Get "Authorization" req = None /\
    Header_Get "Battlenet-Namespace" req
      = (if (namespace =? "")%string then None else Some namespace) /\
    Query req = match v with
                | NoLocale => []
                | _ => [("locale", GetLocale c)]
                end.
Proof.
  intros Hurl. unfold request_of, NewRequestWithContext. rewrite Hurl.
  eexists. split; [reflexivity|].
  unfold with_namespace, Header_Get.
  destruct v; destruct (namespace =? "")%string eqn:Hns;
    cbn -[String.eqb]; rewrite ?Hns, ?String.eqb_refl; repeat split.
Qed.

(** X7. Each of the three templates, given a context that is not nil, a
    URL that parses and a client with a transport, returns after handing
    exactly one request to the transport: a GET of the API host followed by
    the path, with the header Accept: application/json, with the header
    Battlenet-Namespace exactly when the namespace is not empty, with the
    locale of the client as the query parameter [locale] except in the
    template without locale, and with no credentials of its own.  The
    template with a token calls the client made for that token, the two
    others the client of the [Client]. *)
Theorem execute_sends_one_request (v : Variant) (c : Client) (id : nat)
    (pathAndQuery namespace : string) (dat : D) (w : World) :
  parseURL (apiHost c ++ pathAndQuery) = None ->
  client_of v c <> NilClient ->
  exists (r : D * string * option error) (w' : World) (req : Request)
         (rest : list Event),
    execute v c (context id) pathAndQuery namespace dat w = Done r w' /\
    trace w' = (trace w ++ EvDo (client_of v c) req :: rest)%list /\
    requests (trace w') = (requests (trace w) ++ [req])%list /\
    client_of v c = match v with
                    | Delegated token => AuthorizedClient token
                    | _ => client c
                    end /\
    Ctx req = context id /\
    Method req = "GET" /\
    RawURL req = apiHost c ++ pathAndQuery /\
    Body req = "" /\
    BasicAuth req = None /\
    Header_Get "Accept" req = Some "application/json" /\
    Header_Get "Authorization" req = None /\
    Header_Get "Battlenet-Namespace" req
      = (if (namespace =? "")%string then None else Some namespace) /\
    Query req = match v with
                | NoLocale => []
                | _ => [("locale", GetLocale c)]
                end.
Proof.
  intros Hurl Hcl.
  destruct (request_of_built v c id pathAndQuery namespace Hurl) as (req & Hreq & Hshape).
  assert (Hrun : exists r w' rest,
             execute v c (context id) pathAndQuery namespace dat w = Done r w' /\
             trace w' = (trace w ++ EvDo (client_of v c) req :: rest)%list /\
             requests rest = []).
  { rewrite execute_cases with (req := req) by assumption. cbv zeta.
    destruct (reply _) as [res|e];
      [|do 2 eexists; exists []; repeat split].
    destruct (ReadAll res) as [body [e|]];
      [do 2 eexists; exists []; repeat split|].
    destruct (StatusCode res =? StatusOK).
    - do 2 eexists. exists [EvUnmarshal body]. split; [reflexivity|].
      split; [|reflexivity]. simpl. rewrite <- app_assoc. reflexivity.
    - do 2 eexists. exists []. repeat split. }
  destruct Hrun as (r & w' & rest & Hrun & Htrace & Hrest).
  exists r, w', req, rest. split; [exact Hrun|]. split; [exact Htrace|].
  split.
  { rewrite Htrace, requests_app. simpl. rewrite Hrest. reflexivity. }
  split; [destruct v; reflexivity | exact Hshape].
Qed.

(** X8. A template given a nil context, or a URL that does not parse,
    fails before any input or output: it returns the destination
    untouched, no bytes and the error of [http.NewRequestWithContext], and
    the world is as before (nothing was handed to the transport, nothing
    was decoded). *)
Theorem execute_fails_before_any_request (v : Variant) (c : Client)
    (pathAndQuery namespace : string) (dat : D) (w : World) :
  execute v c nilContext pathAndQuery namespace dat w
    = Done (dat, "", Some NilContextError) w /\
  (forall (id : nat) (e : error),
      parseURL (apiHost c ++ pathAndQuery) = Some e ->
      execute v c (context id) pathAndQuery namespace dat w
        = Done (dat, "", Some e) w).
Proof.
  split.
  - rewrite execute_unfold. reflexivity.
  - intros id e Hurl. rewrite execute_unfold.
    unfold request_of, NewRequestWithContext. rewrite Hurl. reflexivity.
Qed.

(** X9. When the response has status 200, its body was read and
    [json.Unmarshal] accepts the body for the destination, each template
    returns the destination as decoded, the very bytes of the body and no
    error. *)
Theorem execute_success_returns_value_and_body (v : Variant) (c : Client)
    (ctx : Context) (pathAndQuery namespace : string) (dat dat' : D) (w : World)
    (req : Request) (res : Response) (body : string) :
  request_of v c ctx pathAndQuery namespace = inl req ->
  client_of v c <> NilClient ->
  reply (roundTrip (trace w) (client_of v c) req) = inl res ->
  ReadAll res = (body, None) ->
  StatusCode res = StatusOK ->
  Unmarshal body dat = (dat', None) ->
  execute v c ctx pathAndQuery namespace dat w
    = Done (dat', body, None)
        (mkWorld (now (after_Do (client_of v c) req w))
           (trace (after_Do (client_of v c) req w) ++ [EvUnmarshal body])).
Proof.
  intros Hreq Hcl Hres Hread Hstatus Hdec.
  rewrite execute_cases with (req := req) by assumption. cbv zeta.
  rewrite Hres, Hread. apply Z.eqb_eq in Hstatus. rewrite Hstatus, Hdec.
  reflexivity.
Qed.

(** X10. On a [Client] whose HTTP client is nil (one not made by
    [NewClient]), the templates with and without locale panic with a nil
    dereference once their request is built; the template with a token,
    which makes its own HTTP client, returns. *)
Theorem nil_client_panics_except_with_a_token (c : Client) (id : nat)
    (pathAndQuery namespace : string) (token : Token) (dat : D) (w : World) :
  client c = NilClient ->
  parseURL (apiHost c ++ pathAndQuery) = None ->
  getStructData c (context id) pathAndQuery namespace dat w
    = Panic "runtime error: invalid memory address or nil pointer dereference" w /\
  getStructDataNoLocale c (context id) pathAndQuery namespace dat w
    = Panic "runtime error: invalid memory address or nil pointer dereference" w /\
  exists r w',
    getStructDataOAuth c (context id) pathAndQuery namespace token dat w
      = Done r w'.
Proof.
  intros Hnil Hurl.
  destruct (request_of_built WithLocale c id pathAndQuery namespace Hurl) as (r1 & H1 & _).
  destruct (request_of_built NoLocale c id pathAndQuery namespace Hurl) as (r2 & H2 & _).
  destruct (request_of_built (Delegated token) c id pathAndQuery namespace Hurl)
    as (r3 & H3 & _).
  split; [|split].
  - change (execute WithLocale c (context id) pathAndQuery namespace dat w
            = Panic "runtime error: invalid memory address or nil pointer dereference" w).
    rewrite execute_unfold, H1. unfold bind, Do. simpl client_of.
    rewrite Hnil. reflexivity.
  - change (execute NoLocale c (context id) pathAndQuery namespace dat w
            = Panic "runtime error: invalid memory address or nil pointer dereference" w).
    rewrite execute_unfold, H2. unfold bind, Do. simpl client_of.
    rewrite Hnil. reflexivity.
  - change (exists r w',
               execute (Delegated token) c (context id) pathAndQuery namespace dat w
               = Done r w').
    rewrite execute_cases with (req := r3) by (assumption || discriminate).
    cbv zeta.
    destruct (reply _) as [res|e]; [|eauto].
    destruct (ReadAll res) as [body [e|]]; [eauto|].
    destruct (StatusCode res =? StatusOK); eauto.
Qed.

End RequestExecutionMore.

(* ================================================================== *)
(** * Further properties: token validation and user information *)

Section OAuthCalls.

Context {net : Network} {V : Type} {target : JSONTarget V}.

(** X11. When [updateAccessTokenIfExp] reports an error, [TokenValidation]
    and [UserInfoHeader] stop there: they return that error, no bytes (and
    the zero value for [TokenValidation]), in the world the refresh left,
    so that no request of their own reaches the transport. *)
Theorem refresh_error_stops_the_call (zero : V) (c c1 : Client) (w w1 : World)
    (e : error) :
  updateAccessTokenIfExp c w = Done (Some e, c1) w1 ->
  TokenValidation zero c w = Done (zero, "", Some e, c1) w1 /\
  UserInfoHeader c w = Done ("", Some e, c1) w1.
Proof.
  intros Hup. unfold TokenValidation, UserInfoHeader, bind.
  rewrite Hup. split; reflexivity.
Qed.

(** X12. Once [updateAccessTokenIfExp] has returned without error, leaving
    the client [c1], [TokenValidation] (if its URL parses and the client
    has a transport) hands exactly one request to the transport: a GET of
    the OAuth host followed by [/oauth/check_token?token=] and the access
    token stored in [c1], with the header Accept: application/json.  It
    returns the bytes read from the response even when the reading failed,
    never looks at the status, and reports the error of the transport, of
    the reading or of the decoding, which it runs on every body read to its
    end. *)
Theorem TokenValidation_after_refresh (zero : V) (c c1 : Client) (w w1 : World) :
  updateAccessTokenIfExp c w = Done (None, c1) w1 ->
  parseURL (oauthHost c1 ++ "/oauth/check_token?token="
              ++ AccessToken (AccessTokenRequest_ (oauth c1))) = None ->
  client c1 <> NilClient ->
  exists (dat : V) (b : string) (err : option error) (w' : World) (req : Request),
    TokenValidation zero c w = Done (dat, b, err, c1) w' /\
    requests (trace w') = (requests (trace w1) ++ [req])%list /\
    Method req = "GET" /\
    RawURL req = oauthHost c1 ++ "/oauth/check_token?token="
                   ++ AccessToken (AccessTokenRequest_ (oauth c1)) /\
    Header_Get "Accept" req = Some "application/json" /\
    Header_Get "Authorization" req = None /\
    BasicAuth req = None /\
    match reply (roundTrip (trace w1) (client c1) req) with
    | inr e => dat = zero /\ b = "" /\ err = Some e
    | inl res =>
        b = fst (ReadAll res) /\
        match snd (ReadAll res) with
        | Some e => dat = zero /\ err = Some e
        | None => (dat, err) = Unmarshal (fst (ReadAll res)) zero
        end
    end.
Proof.
  intros Hup Hurl Hcl.
  assert (Hrun : TokenValidation zero c w =
            let w2 := after_Do (client c1) (validation_request c1) w1 in
            match reply (roundTrip (trace w1) (client c1) (validation_request c1)) with
            | inr e => Done (zero, "", Some e, c1) w2
            | inl res =>
                match ReadAll res with
                | (b, Some e) => Done (zero, b, Some e, c1) w2
                | (b, None) =>
                    Done (fst (Unmarshal b zero), b, snd (Unmarshal b zero), c1)
                      (mkWorld (now w2) (trace w2 ++ [EvUnmarshal b]))
                end
            end).
  { unfold TokenValidation. unfold bind at 1. rewrite Hup.
    unfold NewRequest, NewRequestWithContext, oauthURL. rewrite Hurl. cbv zeta.
    change (Header_Set "Accept" "application/json" _) with (validation_request c1).
    unfold bind at 1. rewrite (Do_returns _ _ Hcl).
    destruct (reply _) as [res|e]; [|reflexivity].
    destruct (ReadAll res) as [b [e|]]; [reflexivity|].
    unfold bind, json_Unmarshal.
    destruct (Unmarshal b zero) as [dat [e|]]; reflexivity. }
  rewrite Hrun. cbv zeta.
  destruct (reply (roundTrip (trace w1) (client c1) (validation_request c1)))
    as [res|e] eqn:Hreply.
  - destruct (ReadAll res) as [b [e|]] eqn:Hread.
    + do 4 eexists. exists (validation_request c1). split; [reflexivity|].
      rewrite Hreply, Hread. simpl trace. rewrite requests_app.
      repeat split.
    + do 4 eexists. exists (validation_request c1). split; [reflexivity|].
      rewrite Hreply, Hread. simpl trace. rewrite !requests_app.
      cbn [requests app fst snd]. rewrite app_nil_r.
      repeat split. destruct (Unmarshal b zero); reflexivity.
  - do 4 eexists. exists (validation_request c1). split; [reflexivity|].
    rewrite Hreply. simpl trace. rewrite requests_app. repeat split.
Qed.

End OAuthCalls.

Section UserInfo.

Context {net : Network}.

(** X13. Once [updateAccessTokenIfExp] has returned without error, leaving
    the client [c1], [UserInfoHeader] (if its URL parses and the client has
    a transport) hands exactly one request to the transport: a GET of the
    OAuth host followed by [/oauth/userinfo], with the header Authorization
    made of [Bearer] and the access token stored in [c1] (the new one after
    a refresh) and the header Accept: application/json.  It returns the
    body and no error whatever the status of the response, decodes
    nothing, and returns no bytes with the error when the transport or the
    reading of the body fails. *)
Theorem UserInfoHeader_after_refresh (c c1 : Client) (w w1 : World) :
  updateAccessTokenIfExp c w = Done (None, c1) w1 ->
  parseURL (oauthHost c1 ++ "/oauth/userinfo") = None ->
  client c1 <> NilClient ->
  exists (b : string) (err : option error) (w' : World) (req : Request),
    UserInfoHeader c w = Done (b, err, c1) w' /\
    trace w' = (trace w1 ++ [EvDo (client c1) req])%list /\
    Method req = "GET" /\
    RawURL req = oauthHost c1 ++ "/oauth/userinfo" /\
    Header_Get "Authorization" req
      = Some ("Bearer " ++ AccessToken (AccessTokenRequest_ (oauth c1))) /\
    Header_Get "Accept" req = Some "application/json" /\
    match reply (roundTrip (trace w1) (client c1) req) with
    | inr e => b = "" /\ err = Some e
    | inl res =>
        match ReadAll res with
        | (_, Some e) => b = "" /\ err = Some e
        | (body, None) => b = body /\ err = None
        end
    end.
Proof.
  intros Hup Hurl Hcl.
  unfold UserInfoHeader. unfold bind at 1. rewrite Hup.
  unfold NewRequest, NewRequestWithContext, oauthURL. rewrite Hurl. cbv zeta.
  change (Header_Set "Accept" "application/json" _) with (userinfo_request c1).
  unfold bind. rewrite (Do_returns _ _ Hcl).
  destruct (reply (roundTrip (trace w1) (client c1) (userinfo_request c1)))
    as [res|e] eqn:Hreply.
  - destruct (ReadAll res) as [body [e|]] eqn:Hread;
      do 3 eexists; exists (userinfo_request c1);
      (split; [reflexivity|]); rewrite Hreply, Hread; repeat split.
  - do 3 eexists. exists (userinfo_request c1).
    split; [reflexivity|]. rewrite Hreply. repeat split.
Qed.

End UserInfo.

(* ================================================================== *)
(** * Further properties: account names *)

Lemma Replace_zero (s : string) (old : ascii) (new : string) :
  Replace s old new 0 = s.
Proof. destruct s; reflexivity. Qed.

Lemma Replace_absent (s : string) (old : ascii) (new : string) (n : Z) :
  ~ In old (bytes_of s) -> Replace s old new n = s.
Proof.
  induction s as [|a s IH]; simpl; intros H; [reflexivity|].
  destruct (n =? 0); [reflexivity|].
  destruct (Ascii.eqb_spec a old) as [->|Hne]; [exfalso; apply H; left; reflexivity|].
  rewrite IH; [reflexivity|]. intros Hin. apply H. right. exact Hin.
Qed.

Lemma Replace_first (a b : string) (old : ascii) (new : string) (n : Z) :
  ~ In old (bytes_of a) -> n <> 0 ->
  Replace (a ++ String old b) old new n
  = (a ++ new ++ Replace b old new (n - 1))%string.
Proof.
  intros H Hn. apply Z.eqb_neq in Hn.
  induction a as [|x a IH]; simpl.
  - rewrite Hn, Ascii.eqb_refl. reflexivity.
  - rewrite Hn.
    destruct (Ascii.eqb_spec x old) as [->|Hne];
      [exfalso; apply H; left; reflexivity|].
    rewrite IH; [reflexivity|]. intros Hin. apply H. right. exact Hin.
Qed.

(** X14. [formatAccount] replaces the first [#] of an account name by [-]
    and nothing else: a name without [#] is returned as it is, and a name
    [a#b] in which [a] has no [#] becomes [a-b], further [#] in [b]
    staying. *)
Theorem formatAccount_replaces_the_first_hash :
  (forall account : string,
      ~ In "#"%char (bytes_of account) -> formatAccount account = account) /\
  (forall a b : string,
      ~ In "#"%char (bytes_of a) ->
      formatAccount (a ++ "#" ++ b) = (a ++ "-" ++ b)%string).
Proof.
  split.
  - intros account H. apply Replace_absent. exact H.
  - intros a b H. unfold formatAccount.
    change ("#" ++ b)%string with (String "#" b).
    rewrite Replace_first by (assumption || discriminate).
    change (1 - 1) with 0. rewrite Replace_zero. reflexivity.
Qed.

(** X15. [formatAccount] keeps the length of the account name. *)
Theorem formatAccount_keeps_the_length (account : string) :
  String.length (formatAccount account) = String.length account.
Proof.
  unfold formatAccount. generalize 1.
  induction account as [|a s IH]; intros n; simpl; [reflexivity|].
  destruct (n =? 0); [reflexivity|].
  destruct (Ascii.eqb a "#"); simpl; rewrite IH; reflexivity.
Qed.

(* ================================================================== *)
(** * Further properties: the StarCraft II wrappers *)

Lemma league_path (seasonID queueID teamType leagueID : Z) :
  Sprintf_d "/data/sc2/league/%d/%d/%d/%d" [seasonID; queueID; teamType; leagueID]
  = ("/data/sc2/league/" ++ itoa seasonID ++ "/" ++ itoa queueID ++ "/"
       ++ itoa teamType ++ "/" ++ itoa leagueID)%string.
Proof. cbn -[itoa]. rewrite append_empty_r. reflexivity. Qed.

Lemma ladder_path (ladderID : Z) :
  Sprintf_d "/data/sc2/ladder/%d" [ladderID]
  = ("/data/sc2/ladder/" ++ itoa ladderID)%string.
Proof. cbn -[itoa]. rewrite append_empty_r. reflexivity. Qed.

Section SC2.

Context {net : Network} {T : Type} {target : JSONTarget T}.

(** [json.Unmarshal] through an interface that holds a pointer. *)
Lemma Unmarshal_pointer (body : string) (zero : T) :
  Unmarshal body (pointer zero) =
    match parse body with
    | None => (pointer zero, Some (DecodeError SyntaxError))
    | Some JNull => (nil_iface, None)
    | Some j => (pointer (fst (store j zero)),
                 option_map DecodeError (snd (store j zero)))
    end.
Proof.
  unfold Unmarshal. destruct (parse body) as [j|]; [|reflexivity].
  destruct j; simpl; try reflexivity;
    match goal with |- context [store ?j zero] => destruct (store j zero) end;
    reflexivity.
Qed.

(** What a wrapper does, case by case: [getStructData] without namespace
    into a pointer to a zero structure, then the type assertion. *)
Lemma wrapper_cases (name : string) (zero : T) (c : Client) (id : nat)
    (path : string) (w : World) :
  parseURL (apiHost c ++ path) = None ->
  client c <> NilClient ->
  ('(dat, b, err) <- getStructData c (context id) path "" (pointer zero) ;;
   match assert_pointer name dat with
   | Returns v => ret (v, b, err)
   | Panics msg => fun w => Panic msg w
   end) w =
    let req := api_request c id path in
    let w1 := after_Do (client c) req w in
    match reply (roundTrip (trace w) (client c) req) with
    | inr e => Done (zero, "", Some e) w1
    | inl res =>
        match ReadAll res with
        | (_, Some e) => Done (zero, "", Some e) w1
        | (body, None) =>
            if StatusCode res =? StatusOK then
              let w2 := mkWorld (now w1) (trace w1 ++ [EvUnmarshal body]) in
              match parse body with
              | None => Done (zero, body, Some (DecodeError SyntaxError)) w2
              | Some JNull =>
                  Panic ("interface conversion: interface {} is nil, not " ++ name) w2
              | Some j =>
                  Done (fst (store j zero), body,
                        option_map DecodeError (snd (store j zero))) w2
              end
            else Done (zero, body, Some (StatusError (Status res))) w1
        end
    end.
Proof.
  intros Hurl Hcl.
  assert (Hreq : request_of WithLocale c (context id) path ""
                 = inl (api_request c id path)).
  { unfold request_of, NewRequestWithContext. rewrite Hurl. reflexivity. }
  unfold bind at 1.
  change (getStructData c (context id) path "" (pointer zero) w)
    with (execute WithLocale c (context id) path "" (pointer zero) w).
  rewrite execute_cases with (req := api_request c id path)
    by (assumption || exact Hcl).
  cbv zeta. simpl client_of.
  destruct (reply _) as [res|e]; [|reflexivity].
  destruct (ReadAll res) as [body [e|]]; [reflexivity|].
  destruct (StatusCode res =? StatusOK); [|reflexivity].
  rewrite Unmarshal_pointer.
  destruct (parse body) as [j|]; [|reflexivity].
  destruct j; reflexivity.
Qed.

(** X16. [SC2LadderData] panics on a response 200 whose body is the JSON
    text [null] (alone or between white space): the decoder then stores
    nil in the interface that held the pointer to the ladder, and the type
    assertion of the wrapper fails. *)
Theorem SC2LadderData_panics_on_null (zero : T) (c : Client) (id : nat)
    (ladderID : Z) (w : World) (res : Response) (body : string) :
  parseURL (apiHost c ++ "/data/sc2/ladder/" ++ itoa ladderID) = None ->
  client c <> NilClient ->
  reply (roundTrip (trace w) (client c)
           (api_request c id ("/data/sc2/ladder/" ++ itoa ladderID))) = inl res ->
  ReadAll res = (body, None) ->
  StatusCode res = StatusOK ->
  parse body = Some JNull ->
  exists w' : World,
    SC2LadderData zero c (context id) ladderID w
    = Panic "interface conversion: interface {} is nil, not *sc2gd.Ladder" w'.
Proof.
  intros Hurl Hcl Hreply Hread Hstatus Hnull.
  unfold SC2LadderData. rewrite ladder_path.
  rewrite wrapper_cases by assumption. cbv zeta.
  rewrite Hreply, Hread. apply Z.eqb_eq in Hstatus. rewrite Hstatus, Hnull.
  eexists. reflexivity.
Qed.

(** X17. In every other case [SC2LadderData] returns, and the structure it
    returns is the zero ladder whenever nothing was decoded into it: with
    no bytes and the error when the transport or the reading of the body
    fails, with the body and the status text when the status is not 200,
    with the body and a syntax error when the body is not JSON.  For a
    JSON body other than [null] it returns the ladder as decoded, the body
    and the error of the decoding, if any. *)
Theorem SC2LadderData_returns_the_ladder (zero : T) (c : Client) (id : nat)
    (ladderID : Z) (w : World) :
  parseURL (apiHost c ++ "/data/sc2/ladder/" ++ itoa ladderID) = None ->
  client c <> NilClient ->
  (forall res, reply (roundTrip (trace w) (client c)
                        (api_request c id ("/data/sc2/ladder/" ++ itoa ladderID)))
               = inl res ->
               snd (ReadAll res) = None -> StatusCode res = StatusOK ->
               parse (fst (ReadAll res)) <> Some JNull) ->
  exists (ladder : T) (b : string) (err : option error) (w' : World),
    SC2LadderData zero c (context id) ladderID w = Done (ladder, b, err) w' /\
    match reply (roundTrip (trace w) (client c)
                   (api_request c id ("/data/sc2/ladder/" ++ itoa ladderID))) with
    | inr e => ladder = zero /\ b = "" /\ err = Some e
    | inl res =>
        match ReadAll res with
        | (_, Some e) => ladder = zero /\ b = "" /\ err = Some e
        | (body, None) =>
            b = body /\
            if StatusCode res =? StatusOK then
              match parse body with
              | None => ladder = zero /\ err = Some (DecodeError SyntaxError)
              | Some j =>
                  ladder = fst (store j zero) /\
                  err = option_map DecodeError (snd (store j zero))
              end
            else ladder = zero /\ err = Some (StatusError (Status res))
        end
    end.
Proof.
  intros Hurl Hcl Hnotnull.
  unfold SC2LadderData. rewrite ladder_path.
  rewrite wrapper_cases by assumption. cbv zeta.
  destruct (reply _) as [res|e]; [|do 4 eexists; split; [reflexivity|]; auto].
  specialize (Hnotnull res eq_refl).
  destruct (ReadAll res) as [body [e|]];
    [do 4 eexists; split; [reflexivity|]; auto|].
  destruct (StatusCode res =? StatusOK) eqn:Hst;
    [|do 4 eexists; split; [reflexivity|]; auto].
  apply Z.eqb_eq in Hst. specialize (Hnotnull eq_refl Hst). simpl in Hnotnull.
  destruct (parse body) as [j|];
    [|do 4 eexists; split; [reflexivity|]; auto].
  destruct j; try (do 4 eexists; split; [reflexivity|]; auto).
  exfalso. apply Hnotnull. reflexivity.
Qed.

(** X18. [SC2LeagueData], whether it returns or panics, hands exactly one
    request to the transport: a GET of the API host followed by
    [/data/sc2/league/] and the season, queue, team type and league
    identifiers in decimal separated by [/], with the locale of the client
    as the query parameter [locale] and without the header
    Battlenet-Namespace. *)
Theorem SC2LeagueData_request (zero : T) (c : Client) (id : nat)
    (seasonID queueID teamType leagueID : Z) (w : World) :
  parseURL (apiHost c ++ "/data/sc2/league/" ++ itoa seasonID ++ "/"
              ++ itoa queueID ++ "/" ++ itoa teamType ++ "/" ++ itoa leagueID)
    = None ->
  client c <> NilClient ->
  exists req : Request,
    requests (trace (world_of
       (SC2LeagueData zero c (context id) seasonID queueID teamType leagueID w)))
    = (requests (trace w) ++ [req])%list /\
    Method req = "GET" /\
    RawURL req = apiHost c ++ "/data/sc2/league/" ++ itoa seasonID ++ "/"
                   ++ itoa queueID ++ "/" ++ itoa teamType ++ "/"
                   ++ itoa leagueID /\
    Query req = [("locale", GetLocale c)] /\
    Header_Get "Accept" req = Some "application/json" /\
    Header_Get "Battlenet-Namespace" req = None.
Proof.
  intros Hurl Hcl.
  eexists. split.
  - unfold SC2LeagueData. rewrite league_path.
    rewrite wrapper_cases by assumption. cbv zeta.
    destruct (reply _) as [res|e].
    + destruct (ReadAll res) as [body [e|]].
      * simpl. rewrite requests_app. reflexivity.
      * destruct (StatusCode res =? StatusOK).
        -- destruct (parse body) as [j|]; [destruct j|];
             simpl; rewrite !requests_app; simpl; rewrite app_nil_r; reflexivity.
        -- simpl. rewrite requests_app. reflexivity.
    + simpl. rewrite requests_app. reflexivity.
  - repeat split.
Qed.

End SC2.

(* ================================================================== *)
(** * Witnesses of the further properties *)

(** Witness of X1: the refresh of an expired token. *)
Lemma refresh_changes_only_the_token_witness :
  @updateAccessTokenIfExp (scripted [token_granted]) expired_client demo_world
    = Done (None, refreshed_client) refreshed_world /\
  client refreshed_client = client expired_client /\
  GetAPIHost refreshed_client = GetAPIHost expired_client.
Proof.
  assert (H : @updateAccessTokenIfExp (scripted [token_granted])
                expired_client demo_world
              = Done (None, refreshed_client) refreshed_world)
    by (vm_compute; reflexivity).
  pose proof (@refresh_changes_only_the_token (scripted [token_granted])
                expired_client refreshed_client demo_world refreshed_world
                None H) as P.
  split; [exact H|]. split; [exact (proj1 P)|].
  exact (proj1 (proj2 (proj2 (proj2 (proj2 (proj2 (proj2 (proj2 P)))))))).
Defined.

(** Witness of X2: the refresh of an expired token. *)
Lemma refresh_performs_one_request_witness :
  (ExpiresAt (oauth expired_client) - now demo_world < 60 /\
   @parseURL (scripted [token_granted]) (oauthHost expired_client ++ "/oauth/token")
     = None /\
   client expired_client <> NilClient) /\
  exists err c' w',
    @updateAccessTokenIfExp (scripted [token_granted]) expired_client demo_world
      = Done (err, c') w' /\
    requests (trace w')
      = (requests (trace demo_world) ++ [token_request expired_client])%list.
Proof.
  assert (H1 : ExpiresAt (oauth expired_client) - now demo_world < 60)
    by (vm_compute; reflexivity).
  assert (H2 : @parseURL (scripted [token_granted])
                 (oauthHost expired_client ++ "/oauth/token") = None)
    by reflexivity.
  assert (H3 : client expired_client <> NilClient) by discriminate.
  split; [repeat split; assumption|].
  destruct (@refresh_performs_one_request (scripted [token_granted])
              expired_client demo_world H1 H2 H3)
    as (err & c' & w' & Hrun & Hreq & _).
  exists err, c', w'. split; [exact Hrun | exact Hreq].
Defined.

(** Witness of X3: a refresh that finds nobody listening. *)
Lemma refresh_failure_keeps_client_witness :
  @AccessTokenReq (scripted []) expired_client demo_world
    = Done (Some (TransportError "connection refused"), expired_client)
        refused_world /\
  (forall v f, TransportError "connection refused"
               <> DecodeError (UnmarshalTypeError v f)) /\
  expired_client = expired_client.
Proof.
  assert (H1 : @AccessTokenReq (scripted []) expired_client demo_world
               = Done (Some (TransportError "connection refused"), expired_client)
                   refused_world) by (vm_compute; reflexivity).
  assert (H2 : forall v f, TransportError "connection refused"
                           <> DecodeError (UnmarshalTypeError v f))
    by (intros v f; discriminate).
  split; [exact H1|]. split; [exact H2|].
  exact (@refresh_failure_keeps_client (scripted []) expired_client
           expired_client demo_world refused_world
           (TransportError "connection refused") H1 H2).
Defined.

(** Witness of X4: a new client of region EU. *)
Lemma new_client_first_asks_for_a_token_witness :
  (0 <= now demo_world /\
   @parseURL (scripted [token_granted])
     (GetOAuthHost (NewClient "id" "secret" EU "en_GB") ++ "/oauth/token") = None) /\
  exists err c' w' req,
    @updateAccessTokenIfExp (scripted [token_granted])
       (NewClient "id" "secret" EU "en_GB") demo_world = Done (err, c') w' /\
    RawURL req = "https://eu.battle.net/oauth/token" /\
    BasicAuth req = Some ("id", "secret").
Proof.
  assert (H1 : 0 <= now demo_world) by (vm_compute; discriminate).
  assert (H2 : @parseURL (scripted [token_granted])
                 (GetOAuthHost (NewClient "id" "secret" EU "en_GB")
                    ++ "/oauth/token") = None) by reflexivity.
  split; [split; assumption|].
  destruct (@new_client_first_asks_for_a_token (scripted [token_granted])
              "id" "secret" EU "en_GB" demo_world H1 H2)
    as (err & c' & w' & req & Hrun & _ & _ & Hurl & Hauth & _).
  exists err, c', w', req. split; [exact Hrun|]. split; [exact Hurl | exact Hauth].
Defined.

(** Witness of X6: a switch to the region EU with a token good for an
    hour. *)
Lemma region_switch_keeps_the_token_witness :
  60 <= ExpiresAt (oauth fresh_client) - now demo_world /\
  @updateAccessTokenIfExp (scripted [token_granted]) (SetRegion EU fresh_client)
     demo_world = Done (None, SetRegion EU fresh_client) demo_world.
Proof.
  assert (H : 60 <= ExpiresAt (oauth fresh_client) - now demo_world)
    by (vm_compute; discriminate).
  split; [exact H|].
  exact (proj1 (@region_switch_keeps_the_token (scripted [token_granted])
                  fresh_client EU demo_world H)).
Defined.

(** Witness of X7: the template without locale, with a namespace. *)
Lemma execute_sends_one_request_witness :
  (@parseURL (scripted [respond res_not_found])
     (apiHost expired_client ++ "/data/wow/realm/index") = None /\
   client_of NoLocale expired_client <> NilClient) /\
  exists r w' req rest,
    @execute (scripted [respond res_not_found]) _ _ NoLocale expired_client
       (context 1) "/data/wow/realm/index" "dynamic-us" empty_destination
       demo_world = Done r w' /\
    trace w' = (trace demo_world
                  ++ EvDo (client_of NoLocale expired_client) req :: rest)%list /\
    RawURL req = "https://us.api.blizzard.com/data/wow/realm/index" /\
    Header_Get "Battlenet-Namespace" req = Some "dynamic-us" /\
    Query req = [].
Proof.
  assert (H1 : @parseURL (scripted [respond res_not_found])
                 (apiHost expired_client ++ "/data/wow/realm/index") = None)
    by reflexivity.
  assert (H2 : client_of NoLocale expired_client <> NilClient) by discriminate.
  split; [split; assumption|].
  destruct (@execute_sends_one_request (scripted [respond res_not_found]) _ _
              NoLocale expired_client 1 "/data/wow/realm/index" "dynamic-us"
              empty_destination demo_world H1 H2)
    as (r & w' & req & rest & Hrun & Htrace & _ & _ & _ & _ & Hurl & _ & _ & _
        & _ & Hns & Hq).
  exists r, w', req, rest.
  split; [exact Hrun|]. split; [exact Htrace|]. split; [exact Hurl|].
  split; [exact Hns | exact Hq].
Defined.

(** Witness of X8: a network whose URL parser rejects the URL. *)
Lemma execute_fails_before_any_request_witness :
  @parseURL (rejecting "invalid control character in URL")
    (apiHost expired_client ++ "/data/sc2/ladder/1")
    = Some (URLError "invalid control character in URL") /\
  @execute (rejecting "invalid control character in URL") _ _ WithLocale
     expired_client (context 1) "/data/sc2/ladder/1" "" empty_destination
     demo_world
  = Done (empty_destination, "",
          Some (URLError "invalid control character in URL")) demo_world.
Proof.
  assert (H : @parseURL (rejecting "invalid control character in URL")
                (apiHost expired_client ++ "/data/sc2/ladder/1")
              = Some (URLError "invalid control character in URL"))
    by reflexivity.
  split; [exact H|].
  exact (proj2 (@execute_fails_before_any_request
                  (rejecting "invalid control character in URL") _ _ WithLocale
                  expired_client "/data/sc2/ladder/1" "" empty_destination
                  demo_world)
           1%nat (URLError "invalid control character in URL") H).
Defined.

(** Witness of X9: a response 200 with a well-formed body. *)
Lemma execute_success_returns_value_and_body_witness :
  (@request_of (scripted [token_granted]) WithLocale expired_client (context 1)
     "/data/sc2/ladder/1" "" = inl ladder_request /\
   client_of WithLocale expired_client <> NilClient /\
   reply (@roundTrip (scripted [token_granted]) (trace demo_world)
            (client_of WithLocale expired_client) ladder_request)
   = inl res_token_granted /\
   ReadAll res_token_granted
   = (js "{'access_token':'NEW','token_type':'bearer','expires_in':3600}", None) /\
   StatusCode res_token_granted = StatusOK /\
   Unmarshal (js "{'access_token':'NEW','token_type':'bearer','expires_in':3600}")
     empty_destination
   = (pointer (mkAccessTokenRequest "NEW" "bearer" 3600 ""), None)) /\
  @execute (scripted [token_granted]) _ _ WithLocale expired_client (context 1)
     "/data/sc2/ladder/1" "" empty_destination demo_world
  = Done (pointer (mkAccessTokenRequest "NEW" "bearer" 3600 ""),
          js "{'access_token':'NEW','token_type':'bearer','expires_in':3600}",
          None)
      (mkWorld 250002000
         [EvDo (client expired_client) ladder_request;
          EvUnmarshal
            (js "{'access_token':'NEW','token_type':'bearer','expires_in':3600}")]).
Proof.
  assert (H1 : @request_of (scripted [token_granted]) WithLocale expired_client
                 (context 1) "/data/sc2/ladder/1" "" = inl ladder_request)
    by reflexivity.
  assert (H2 : client_of WithLocale expired_client <> NilClient) by discriminate.
  assert (H3 : reply (@roundTrip (scripted [token_granted]) (trace demo_world)
                        (client_of WithLocale expired_client) ladder_request)
               = inl res_token_granted) by reflexivity.
  assert (H4 : ReadAll res_token_granted
               = (js "{'access_token':'NEW','token_type':'bearer','expires_in':3600}",
                  None)) by reflexivity.
  assert (H5 : StatusCode res_token_granted = StatusOK) by reflexivity.
  assert (H6 : Unmarshal
                 (js "{'access_token':'NEW','token_type':'bearer','expires_in':3600}")
                 empty_destination
               = (pointer (mkAccessTokenRequest "NEW" "bearer" 3600 ""), None))
    by (vm_compute; reflexivity).
  split; [repeat split; assumption|].
  exact (@execute_success_returns_value_and_body (scripted [token_granted]) _ _
           WithLocale expired_client (context 1) "/data/sc2/ladder/1" ""
           empty_destination _ demo_world ladder_request res_token_granted _
           H1 H2 H3 H4 H5 H6).
Defined.

(** Witness of X10: the zero client. *)
Lemma nil_client_panics_except_with_a_token_witness :
  (client zero_client = NilClient /\
   @parseURL (scripted [respond res_not_found])
     (apiHost zero_client ++ "/data/sc2/ladder/1") = None) /\
  @getStructData (scripted [respond res_not_found]) _ _ zero_client (context 1)
     "/data/sc2/ladder/1" "" empty_destination demo_world
  = Panic "runtime error: invalid memory address or nil pointer dereference"
      demo_world.
Proof.
  assert (H1 : client zero_client = NilClient) by reflexivity.
  assert (H2 : @parseURL (scripted [respond res_not_found])
                 (apiHost zero_client ++ "/data/sc2/ladder/1") = None)
    by reflexivity.
  split; [split; assumption|].
  exact (proj1 (@nil_client_panics_except_with_a_token
                  (scripted [respond res_not_found]) _ _ zero_client 1
                  "/data/sc2/ladder/1" "" (mkToken "user-token")
                  empty_destination demo_world H1 H2)).
Defined.

(** Witness of X11: a refresh that finds nobody listening. *)
Lemma refresh_error_stops_the_call_witness :
  @updateAccessTokenIfExp (scripted []) expired_client demo_world
    = Done (Some (TransportError "connection refused"), expired_client)
        refused_world /\
  @UserInfoHeader (scripted []) expired_client demo_world
    = Done ("", Some (TransportError "connection refused"), expired_client)
        refused_world.
Proof.
  assert (H : @updateAccessTokenIfExp (scripted []) expired_client demo_world
              = Done (Some (TransportError "connection refused"), expired_client)
                  refused_world) by (vm_compute; reflexivity).
  split; [exact H|].
  exact (proj2 (@refresh_error_stops_the_call (scripted []) AccessTokenRequest _
                  (mkAccessTokenRequest "" "" 0 "") expired_client expired_client
                  demo_world refused_world
                  (TransportError "connection refused") H)).
Defined.

(** Witness of X12: a token good for an hour, a response that stops
    arriving. *)
Lemma TokenValidation_after_refresh_witness :
  (@updateAccessTokenIfExp (scripted [respond res_truncated]) fresh_client
     demo_world = Done (None, fresh_client) demo_world /\
   @parseURL (scripted [respond res_truncated])
     (oauthHost fresh_client ++ "/oauth/check_token?token="
        ++ AccessToken (AccessTokenRequest_ (oauth fresh_client))) = None /\
   client fresh_client <> NilClient) /\
  exists dat b err w' req,
    @TokenValidation (scripted [respond res_truncated]) AccessTokenRequest _
       (mkAccessTokenRequest "" "" 0 "") fresh_client demo_world
      = Done (dat, b, err, fresh_client) w' /\
    RawURL req = "https://us.battle.net/oauth/check_token?token=OLD".
Proof.
  assert (H1 : @updateAccessTokenIfExp (scripted [respond res_truncated])
                 fresh_client demo_world = Done (None, fresh_client) demo_world)
    by (vm_compute; reflexivity).
  assert (H2 : @parseURL (scripted [respond res_truncated])
                 (oauthHost fresh_client ++ "/oauth/check_token?token="
                    ++ AccessToken (AccessTokenRequest_ (oauth fresh_client)))
               = None) by reflexivity.
  assert (H3 : client fresh_client <> NilClient) by discriminate.
  split; [repeat split; assumption|].
  destruct (@TokenValidation_after_refresh (scripted [respond res_truncated])
              AccessTokenRequest _ (mkAccessTokenRequest "" "" 0 "")
              fresh_client fresh_client demo_world demo_world H1 H2 H3)
    as (dat & b & err & w' & req & Hrun & _ & _ & Hurl & _).
  exists dat, b, err, w', req. split; [exact Hrun | exact Hurl].
Defined.

(** Witness of X13: an expired token is refreshed, and the new token is
    the bearer. *)
Lemma UserInfoHeader_after_refresh_witness :
  (@updateAccessTokenIfExp (scripted [token_granted; respond res_not_found])
     expired_client demo_world = Done (None, refreshed_client) refreshed_world /\
   @parseURL (scripted [token_granted; respond res_not_found])
     (oauthHost refreshed_client ++ "/oauth/userinfo") = None /\
   client refreshed_client <> NilClient) /\
  exists b err w' req,
    @UserInfoHeader (scripted [token_granted; respond res_not_found])
       expired_client demo_world = Done (b, err, refreshed_client) w' /\
    Header_Get "Authorization" req = Some "Bearer NEW".
Proof.
  assert (H1 : @updateAccessTokenIfExp
                 (scripted [token_granted; respond res_not_found])
                 expired_client demo_world
               = Done (None, refreshed_client) refreshed_world)
    by (vm_compute; reflexivity).
  assert (H2 : @parseURL (scripted [token_granted; respond res_not_found])
                 (oauthHost refreshed_client ++ "/oauth/userinfo") = None)
    by reflexivity.
  assert (H3 : client refreshed_client <> NilClient) by discriminate.
  split; [repeat split; assumption|].
  destruct (@UserInfoHeader_after_refresh
              (scripted [token_granted; respond res_not_found])
              expired_client refreshed_client demo_world refreshed_world
              H1 H2 H3)
    as (b & err & w' & req & Hrun & _ & _ & _ & Hauth & _).
  exists b, err, w', req. split; [exact Hrun | exact Hauth].
Defined.

(** Witness of X14: an account name with its number. *)
Lemma formatAccount_replaces_the_first_hash_witness :
  ~ In "#"%char (bytes_of "Name") /\
  formatAccount "Name" = "Name" /\
  formatAccount ("Name" ++ "#" ++ "1234#5") = ("Name" ++ "-" ++ "1234#5")%string.
Proof.
  assert (H : ~ In "#"%char (bytes_of "Name")).
  { simpl. intros [E|[E|[E|[E|[]]]]]; discriminate E. }
  split; [exact H|]. split.
  - exact (proj1 formatAccount_replaces_the_first_hash "Name" H).
  - exact (proj2 formatAccount_replaces_the_first_hash "Name" "1234#5" H).
Defined.

(** Witness of X16: a response 200 whose body is null between spaces. *)
Lemma SC2LadderData_panics_on_null_witness :
  (@parseURL (scripted [respond res_null])
     (apiHost expired_client ++ "/data/sc2/ladder/" ++ itoa 17) = None /\
   client expired_client <> NilClient /\
   reply (@roundTrip (scripted [respond res_null]) (trace demo_world)
            (client expired_client)
            (api_request expired_client 1 ("/data/sc2/ladder/" ++ itoa 17)))
   = inl res_null /\
   ReadAll res_null = (" null ", None) /\
   StatusCode res_null = StatusOK /\
   parse " null " = Some JNull) /\
  exists w',
    @SC2LadderData (scripted [respond res_null]) AccessTokenRequest _
       (mkAccessTokenRequest "" "" 0 "") expired_client (context 1) 17 demo_world
    = Panic "interface conversion: interface {} is nil, not *sc2gd.Ladder" w'.
Proof.
  assert (H1 : @parseURL (scripted [respond res_null])
                 (apiHost expired_client ++ "/data/sc2/ladder/" ++ itoa 17) = None)
    by reflexivity.
  assert (H2 : client expired_client <> NilClient) by discriminate.
  assert (H3 : reply (@roundTrip (scripted [respond res_null]) (trace demo_world)
                        (client expired_client)
                        (api_request expired_client 1
                           ("/data/sc2/ladder/" ++ itoa 17)))
               = inl res_null) by reflexivity.
  assert (H4 : ReadAll res_null = (" null ", None)) by reflexivity.
  assert (H5 : StatusCode res_null = StatusOK) by reflexivity.
  assert (H6 : parse " null " = Some JNull) by (vm_compute; reflexivity).
  split; [repeat split; assumption|].
  exact (@SC2LadderData_panics_on_null (scripted [respond res_null])
           AccessTokenRequest _ (mkAccessTokenRequest "" "" 0 "") expired_client
           1 17 demo_world res_null " null " H1 H2 H3 H4 H5 H6).
Defined.

(** Witness of X17: a response 404. *)
Lemma SC2LadderData_returns_the_ladder_witness :
  (@parseURL (scripted [respond res_not_found])
     (apiHost expired_client ++ "/data/sc2/ladder/" ++ itoa 17) = None /\
   client expired_client <> NilClient) /\
  exists ladder b err w',
    @SC2LadderData (scripted [respond res_not_found]) AccessTokenRequest _
       (mkAccessTokenRequest "" "" 0 "") expired_client (context 1) 17 demo_world
    = Done (ladder, b, err) w'.
Proof.
  assert (H1 : @parseURL (scripted [respond res_not_found])
                 (apiHost expired_client ++ "/data/sc2/ladder/" ++ itoa 17) = None)
    by reflexivity.
  assert (H2 : client expired_client <> NilClient) by discriminate.
  assert (H3 : forall res,
             reply (@roundTrip (scripted [respond res_not_found])
                      (trace demo_world) (client expired_client)
                      (api_request expired_client 1
                         ("/data/sc2/ladder/" ++ itoa 17))) = inl res ->
             snd (ReadAll res) = None -> StatusCode res = StatusOK ->
             parse (fst (ReadAll res)) <> Some JNull).
  { intros res Hr _ Hs. vm_compute in Hr. injection Hr as <-. discriminate Hs. }
  split; [split; assumption|].
  destruct (@SC2LadderData_returns_the_ladder (scripted [respond res_not_found])
              AccessTokenRequest _ (mkAccessTokenRequest "" "" 0 "")
              expired_client 1 17 demo_world H1 H2 H3)
    as (ladder & b & err & w' & Hrun & _).
  exists ladder, b, err, w'. exact Hrun.
Defined.

(** Witness of X18: season 37, queue 201, team type 0, league 6. *)
Lemma SC2LeagueData_request_witness :
  (@parseURL (scripted [respond res_not_found])
     (apiHost expired_client ++ "/data/sc2/league/" ++ itoa 37 ++ "/"
        ++ itoa 201 ++ "/" ++ itoa 0 ++ "/" ++ itoa 6) = None /\
   client expired_client <> NilClient) /\
  exists req,
    requests (trace (world_of
       (@SC2LeagueData (scripted [respond res_not_found]) AccessTokenRequest _
          (mkAccessTokenRequest "" "" 0 "") expired_client (context 1)
          37 201 0 6 demo_world)))
    = (requests (trace demo_world) ++ [req])%list /\
    RawURL req = "https://us.api.blizzard.com/data/sc2/league/37/201/0/6".
Proof.
  assert (H1 : @parseURL (scripted [respond res_not_found])
                 (apiHost expired_client ++ "/data/sc2/league/" ++ itoa 37 ++ "/"
                    ++ itoa 201 ++ "/" ++ itoa 0 ++ "/" ++ itoa 6) = None)
    by reflexivity.
  assert (H2 : client expired_client <> NilClient) by discriminate.
  split; [split; assumption|].
  destruct (@SC2LeagueData_request (scripted [respond res_not_found])
              AccessTokenRequest _ (mkAccessTokenRequest "" "" 0 "")
              expired_client 1 37 201 0 6 demo_world H1 H2)
    as (req & Hreq & _ & Hurl & _).
  exists req. split; [exact Hreq | exact Hurl].
Defined.
